(** * dangerzone/gui/common.py: the GUI glue of dangerzone

    A shallow embedding of [GuiCommon] (the PDF viewer registry, the viewer
    launcher and the two Docker set-up flows) and of the [Alert] dialog's
    return codes, followed by the properties of the specification that are
    checked against it.

    Python strings are modelled as byte strings (their UTF-8 encoding): every
    character the code inspects is ASCII, so the byte view and the code point
    view agree on all the tests made here. *)

From Stdlib Require Import ZArith Ascii String List Lia.
From stdpp Require Import base option list strings functions gmap fin_maps.

Local Open Scope Z_scope.

(** ** Python values, exceptions and results *)

(** The values a settings entry can hold (the settings file is JSON). *)
Inductive value :=
| VNone
| VBool (b : bool)
| VInt (z : Z)
| VStr (s : string).

(** [v == True] in Python: [True], and the integer [1], compare equal to
    [True]; nothing else of the values above does. *)
Definition py_eq_True (v : value) : bool :=
  match v with
  | VBool b => b
  | VInt z => z =? 1
  | _ => false
  end.

(** Exception classes that the calls made by this module can raise. *)
Inductive exn :=
| FileNotFoundError
| PermissionError
| NotADirectoryError
| KeyError
| ValueError (msg : string)
| TypeError
| IndexError
| ParsingError
| UnicodeEncodeError
| OtherError (class_name : string).

Definition is_FileNotFoundError (e : exn) : bool :=
  match e with FileNotFoundError => true | _ => false end.

(** What a Python call delivers: a value, or a raised exception. *)
Inductive result (A : Type) :=
| Ok (a : A)
| Raise (e : exn).
Arguments Ok {A} a.
Arguments Raise {A} e.

(** ** A state and exception monad

    [M S A] is a Python computation over the mutable state [S]: it ends with
    a value or with a raised exception, and in both cases the mutations made
    so far remain. *)
Definition M (S A : Type) : Type := S → result A * S.

Global Instance M_ret {S} : MRet (M S) := λ A a s, (Ok a, s).

Global Instance M_bind {S} : MBind (M S) := λ A B k m s,
  match m s with
  | (Ok a, s') => k a s'
  | (Raise e, s') => (Raise e, s')
  end.

Global Instance M_throw {S} : MThrow exn (M S) := λ A e s, (Raise e, s).

(** A call whose outcome does not depend on the state. *)
Definition lift {S A} (r : result A) : M S A := λ s, (r, s).

Definition get_state {S} : M S S := λ s, (Ok s, s).
Definition modify {S} (f : S → S) : M S unit := λ s, (Ok tt, f s).

(** [try: body / except: handler] (a bare [except] catches everything). *)
Definition try_except {S A} (body : M S A) (handler : M S A) : M S A := λ s,
  match body s with
  | (Ok a, s') => (Ok a, s')
  | (Raise _, s') => handler s'
  end.

(** [try: body / except cls: handler], for the classes selected by [catches];
    any other exception goes on to the caller. *)
Definition try_except_only {S A} (catches : exn → bool)
    (body : M S A) (handler : M S A) : M S A := λ s,
  match body s with
  | (Ok a, s') => (Ok a, s')
  | (Raise e, s') => if catches e then handler s' else (Raise e, s')
  end.

(** [for x in xs: body x]. *)
Fixpoint for_each {S A} (xs : list A) (body : A → M S unit) : M S unit :=
  match xs with
  | [] => mret tt
  | x :: xs' => body x ;; for_each xs' body
  end.

(** ** The string functions of the Python library that the module calls *)

Module Py.

Definition char_in (c : ascii) (cs : list ascii) : bool :=
  existsb (Ascii.eqb c) cs.

Definition chars (s : string) : list ascii := list_ascii_of_string s.

(** [s.rfind(c)]: the last index of [c] in [s], or -1. *)
Fixpoint rfind_from (c : ascii) (s : list ascii) (i : Z) (found : Z) : Z :=
  match s with
  | [] => found
  | x :: s' => rfind_from c s' (i + 1) (if Ascii.eqb x c then i else found)
  end.

Definition rfind (c : ascii) (s : string) : Z := rfind_from c (chars s) 0 (-1).

Definition slice (s : string) (lo hi : Z) : string :=
  String.substring (Z.to_nat lo) (Z.to_nat (hi - lo)) s.

Definition str_len (s : string) : Z := Z.of_nat (String.length s).

(** [os.path.splitext] of posixpath: the extension starts at the last dot of
    the last path component, unless that component has only dots before it. *)
Definition splitext (p : string) : string * string :=
  let sepIndex := rfind "/" p in
  let dotIndex := rfind "." p in
  if (sepIndex <? dotIndex) &&
     existsb (λ c, negb (Ascii.eqb c ".")) (chars (slice p (sepIndex + 1) dotIndex))
  then (slice p 0 dotIndex, slice p dotIndex (str_len p))
  else (p, "").

Definition startswith (pre s : string) : bool := String.prefix pre s.

Definition endswith (c : ascii) (s : string) : bool :=
  match rev (chars s) with
  | x :: _ => Ascii.eqb x c
  | [] => false
  end.

(** [os.path.join(a, b)] of posixpath, for one component [b]. *)
Definition os_path_join (a b : string) : string :=
  if startswith "/" b then b
  else if String.eqb a "" || endswith "/" a then a +:+ b
  else a +:+ "/" +:+ b.

(** [sep.join(parts)]. *)
Fixpoint str_join (sep : string) (parts : list string) : string :=
  match parts with
  | [] => ""
  | [x] => x
  | x :: rest => x +:+ sep +:+ str_join sep rest
  end.

(** *** shlex.split

    [shlex.split(s)] builds a lexer in POSIX mode with [whitespace_split] set
    and no comment characters, and collects its tokens.  The lexer keeps its
    state in a character: a blank between tokens, ['a'] inside a word, the
    opening quote inside a quoted part, the backslash after an escape. *)

Definition dquote : ascii := "034"%char.
Definition squote : ascii := "039"%char.
Definition backslash : ascii := "092"%char.

Definition whitespace : list ascii := [" "; "009"; "013"; "010"]%char.
Definition quotes : list ascii := [squote; dquote].
Definition escape : list ascii := [backslash].
Definition escapedquotes : list ascii := [dquote].

Definition push (token : string) (c : ascii) : string :=
  token +:+ String c "".

(** The end of [read_token]: an empty token that was never quoted is the end
    of input ([None]) and is not collected. *)
Definition collect (out : list string) (quoted : bool) (token : string) : list string :=
  if negb quoted && String.eqb token "" then out else out ++ [token].

(** The token loop of [read_token], run over the whole input: [state],
    [quoted], [escapedstate] and [token] are the lexer's variables of the same
    names, [out] the tokens returned by the earlier calls.  A [break] of
    [read_token] collects the token and starts the next call, with [quoted]
    and [escapedstate] reset. *)
Fixpoint read_tokens (instream : list ascii) (state : ascii) (quoted : bool)
    (escapedstate : ascii) (token : string) (out : list string)
    : result (list string) :=
  match instream with
  | [] =>
      if Ascii.eqb state " " then Ok (collect out quoted token)
      else if char_in state quotes then Raise (ValueError "No closing quotation")
      else if char_in state escape then Raise (ValueError "No escaped character")
      else Ok (collect out quoted token)
  | nextchar :: rest =>
      if Ascii.eqb state " " then
        if char_in nextchar whitespace then
          if negb (String.eqb token "") || quoted
          then read_tokens rest state false " " "" (out ++ [token])
          else read_tokens rest state quoted escapedstate token out
        else if char_in nextchar escape then
          read_tokens rest nextchar quoted "a" token out
        else if char_in nextchar quotes then
          read_tokens rest nextchar quoted escapedstate token out
        else
          read_tokens rest "a" quoted escapedstate (String nextchar "") out
      else if char_in state quotes then
        if Ascii.eqb nextchar state then
          read_tokens rest "a" true escapedstate token out
        else if char_in nextchar escape && char_in state escapedquotes then
          read_tokens rest nextchar true state token out
        else
          read_tokens rest state true escapedstate (push token nextchar) out
      else if char_in state escape then
        let token :=
          if char_in escapedstate quotes && negb (Ascii.eqb nextchar state)
             && negb (Ascii.eqb nextchar escapedstate)
          then push token state else token in
        read_tokens rest escapedstate quoted escapedstate (push token nextchar) out
      else
        if char_in nextchar whitespace then
          if negb (String.eqb token "") || quoted
          then read_tokens rest " " false " " "" (out ++ [token])
          else read_tokens rest " " quoted escapedstate token out
        else if char_in nextchar quotes then
          read_tokens rest nextchar quoted escapedstate token out
        else if char_in nextchar escape then
          read_tokens rest nextchar quoted "a" token out
        else
          read_tokens rest state quoted escapedstate (push token nextchar) out
  end.

Definition shlex_split (s : string) : result (list string) :=
  read_tokens (chars s) " " false " " "" [].

(** *** pipes.quote (shlex.quote) *)

Definition between (lo hi c : ascii) : bool :=
  (nat_of_ascii lo <=? nat_of_ascii c)%nat && (nat_of_ascii c <=? nat_of_ascii hi)%nat.

(** The characters matched by [[\w@%+=:,./-]] under [re.ASCII]. *)
Definition safe_char (c : ascii) : bool :=
  between "a" "z" c || between "A" "Z" c || between "0" "9" c ||
  char_in c ["_"; "@"; "%"; "+"; "="; ":"; ","; "."; "/"; "-"]%char.

Fixpoint replace_squote (s : string) : string :=
  match s with
  | EmptyString => EmptyString
  | String c s' =>
      if Ascii.eqb c squote
      then String squote (String dquote (String squote (String dquote
             (String squote (replace_squote s')))))
      else String c (replace_squote s')
  end.

Definition quote (s : string) : string :=
  if String.eqb s "" then String squote (String squote "")
  else if forallb safe_char (chars s) then s
  else String squote (replace_squote s) +:+ String squote "".

End Py.

(** ** The world around the GUI *)

(** The return codes of a [QDialog] and the code each button of [Alert]
    passes to [done]. *)
Module QDialog.
Definition Accepted : Z := 1.
Definition Rejected : Z := 0.
End QDialog.

Inductive button := OkButton | ExtraButton | CancelButton.

Definition Alert_clicked (b : button) : Z :=
  match b with
  | OkButton => QDialog.Accepted      (* clicked_ok *)
  | ExtraButton => 2                  (* clicked_extra *)
  | CancelButton => QDialog.Rejected  (* clicked_cancel *)
  end.

(** What [xdg.DesktopEntry] gives for one [.desktop] file. *)
Record DesktopEntryData := {
  getMimeTypes : list string;
  getName : string;
  getExec : string;
}.

(** The actions of the module that are visible from outside, in the order
    they happen. *)
Inductive event :=
| EvPrint (line : string)
| EvRun (args : list string)
| EvPopen (args : list string)
| EvAlert (message ok_text : string) (extra_button_text : option string)
| EvIsDockerReady
| EvGetgrnam (name : string)
| EvGetuser
| EvSettingsSet (key : string) (v : value)
| EvSettingsSave.

Definition is_EvAlert (e : event) : bool :=
  match e with EvAlert _ _ _ => true | _ => false end.
Definition is_EvRun (e : event) : bool :=
  match e with EvRun _ => true | _ => false end.
Definition is_EvPopen (e : event) : bool :=
  match e with EvPopen _ => true | _ => false end.
Definition is_EvPrint (e : event) : bool :=
  match e with EvPrint _ => true | _ => false end.
Definition is_EvIsDockerReady (e : event) : bool :=
  match e with EvIsDockerReady => true | _ => false end.
Definition is_settings_write (e : event) : bool :=
  match e with EvSettingsSet _ _ | EvSettingsSave => true | _ => false end.

Fixpoint count (p : event → bool) (t : list event) : nat :=
  match t with
  | [] => O
  | e :: t' => if p e then S (count p t') else count p t'
  end.

(** The host the program runs on: the answers of the operating system, of the
    user and of the collaborators outside this module.  An answer that can
    differ from one call to the next is indexed by the number of earlier
    calls of the same kind. *)
Record Host := {
  platform_system : string;
  get_resource_path : string → string;
  (* [is_docker_ready(global_common)] of docker_installer *)
  is_docker_ready : nat → result bool;
  (* [QDialog.exec_()] of the n-th [Alert] *)
  Alert_exec : nat → result Z;
  (* the return code of the n-th [subprocess.run] *)
  subprocess_run : nat → result Z;
  subprocess_Popen : nat → result unit;
  (* the n-th [print] on the console: it raises UnicodeEncodeError where
     the encoding of stdout has no U+2023 *)
  stdout_print : nat → result unit;
  (* [grp.getgrnam(name).gr_mem] *)
  grp_getgrnam : string → result (list string);
  getpass_getuser : result string;
  os_path_expanduser : string → string;
  os_listdir : string → result (list string);
  DesktopEntry : string → result DesktopEntryData;
  (* LaunchServices; a null array is [None] *)
  LSCopyAllRoleHandlersForContentType : string → option (list string);
  LSCopyApplicationURLsForBundleIdentifier : string → option (list string);
  os_path_exists : string → bool;
  (* reading a file and [plistlib.loads]; the entries of the plist, which
     are taken to be text: CFBundleName is a string in an Info.plist *)
  read_plist : string → result (gmap string string);
}.

(** Modelled from the spec: the Settings collaborator (dangerzone/settings.py)
    with its three operations [get(key) -> value], [set(key, value)] and
    [save()]; [settings] is the store in memory and [saved_settings] what
    [save] persisted last. *)
Record GuiState := {
  settings : string → value;
  saved_settings : string → value;
  trace : list event;
}.

Definition log (e : event) : M GuiState unit :=
  modify (λ st, {| settings := settings st; saved_settings := saved_settings st;
                   trace := trace st ++ [e] |}).

Definition calls (kind : event → bool) : M GuiState nat :=
  st ← get_state; mret (count kind (trace st)).

Definition settings_get (key : string) : M GuiState value :=
  st ← get_state; mret (settings st key).

Definition settings_set (key : string) (v : value) : M GuiState unit :=
  modify (λ st, {| settings := <[key := v]> (settings st);
                   saved_settings := saved_settings st; trace := trace st |}) ;;
  log (EvSettingsSet key v).

Definition settings_save : M GuiState unit :=
  modify (λ st, {| settings := settings st; saved_settings := settings st;
                   trace := trace st |}) ;;
  log EvSettingsSave.

Section Collaborators.
Context (h : Host).

Definition is_docker_ready_ : M GuiState bool :=
  n ← calls is_EvIsDockerReady; log EvIsDockerReady ;; lift (is_docker_ready h n).

(** [Alert(self, global_common, message, ok_text, extra_button_text).launch()] *)
Definition Alert_launch (message : string) (ok_text : string)
    (extra_button_text : option string) : M GuiState Z :=
  n ← calls is_EvAlert;
  log (EvAlert message ok_text extra_button_text) ;;
  lift (Alert_exec h n).

(** [subprocess.run(args).returncode] *)
Definition subprocess_run_ (args : list string) : M GuiState Z :=
  n ← calls is_EvRun; log (EvRun args) ;; lift (subprocess_run h n).

Definition subprocess_Popen_ (args : list string) : M GuiState unit :=
  n ← calls is_EvPopen; log (EvPopen args) ;; lift (subprocess_Popen h n).

(** [print(line)]: the line goes to the console, unless writing it raises. *)
Definition print (line : string) : M GuiState unit :=
  n ← calls is_EvPrint; log (EvPrint line) ;; lift (stdout_print h n).

Definition grp_getgrnam_ (name : string) : M GuiState (list string) :=
  log (EvGetgrnam name) ;; lift (grp_getgrnam h name).

Definition getpass_getuser_ : M GuiState string :=
  log EvGetuser ;; lift (getpass_getuser h).
End Collaborators.

(** ** class GuiCommon *)

(** The attribute of [GuiCommon] the methods below read: the registry built
    once by [__init__]. *)
Record GuiCommon := { pdf_viewers : gmap string string }.

(** [key in d] and [d[key]] for a key read from the settings: only a string
    can be a key of the registry. *)
Definition dict_contains (d : gmap string string) (key : value) : bool :=
  match key with
  | VStr k => bool_decide (is_Some (d !! k))
  | _ => false
  end.

Definition dict_getitem (d : gmap string string) (key : value) : result string :=
  match key with
  | VStr k => match d !! k with Some x => Ok x | None => Raise KeyError end
  | _ => Raise KeyError
  end.

(** [colorama.Fore.YELLOW], [colorama.Fore.CYAN] and the bullet U+2023
    followed by a blank. *)
Definition Fore_YELLOW : string := String "027" "[33m".
Definition Fore_CYAN : string := String "027" "[36m".
Definition bullet : string := String "226" (String "128" (String "163" " ")).

Definition command_line (args : list string) : string :=
  Fore_YELLOW +:+ bullet +:+ Fore_CYAN +:+ Py.str_join " " (map Py.quote args).

Definition is_placeholder (arg : string) : bool :=
  String.eqb arg "%f" || String.eqb arg "%F" ||
  String.eqb arg "%u" || String.eqb arg "%U".

(** One round of the loop [for i in range(len(args))]: [args[i] = filename]
    when [args[i]] is a placeholder.  The indices come from the length of
    [args], which the assignment keeps, so [args[i]] is always there. *)
Definition substitute_at (filename : string) (args : list string) (i : nat)
    : list string :=
  match args !! i with
  | Some arg => if is_placeholder arg then <[i := filename]> args else args
  | None => args
  end.

Definition substitute (filename : string) (args : list string) : list string :=
  fold_left (substitute_at filename) (seq 0 (length args)) args.

Definition group_message : string :=
  "<b>Dangerzone requires Docker</b><br><br>In order to use Docker, your user must be in the 'docker' group or you'll need to type your password each time you run dangerzone.<br><br><b>Adding your user to the 'docker' group is more convenient but less secure</b>, and will require just typing your password once. Which do you prefer?".
Definition relogin_message : string :=
  "Great! Now you must log out of your computer and log back in, and then you can use Dangerzone.".
Definition usermod_failed_message : string :=
  "Failed to add your user to the 'docker' group, quitting.".
Definition service_message : string :=
  "<b>Dangerzone requires Docker</b><br><br>Docker should be installed, but it looks like it's not running in the background.<br><br>Click Ok to try starting the docker service. You will have to type your login password.".
Definition still_not_responding_message : string :=
  "Restarting docker appeared to work, but the service still isn't responding, quitting.".
Definition service_failed_message : string :=
  "Failed to start the docker service, quitting.".

Definition usermod_command (username : string) : list string :=
  ["/usr/bin/pkexec"; "/usr/sbin/usermod"; "-a"; "-G"; "docker"; username].

Section GuiCommon.
Context (h : Host).

(** *** _find_pdf_viewers

    The local dictionary [pdf_viewers] is the state of the computation. *)

(** The body of the loop over the bundle identifiers (Darwin). *)
Definition find_bundle (bundle_identifier : string) : M (gmap string string) unit :=
  match LSCopyApplicationURLsForBundleIdentifier h bundle_identifier with
  | None => mret tt
  | Some urls =>
      app_path ← lift (match urls with u :: _ => Ok u | [] => Raise IndexError end);
      let plist_path := Py.os_path_join app_path "Contents/Info.plist" in
      if negb (os_path_exists h plist_path) then mret tt
      else
        plist_dict ← lift (read_plist h plist_path);
        match plist_dict !! "CFBundleName" with
        | Some name =>
            if negb (String.eqb name "") && negb (String.eqb name "Dangerzone")
            then modify (<[name := bundle_identifier]>)
            else mret tt
        | None => mret tt
        end
  end.

(** The body of the loop over the files of one directory (Linux). *)
Definition find_desktop_file (search_path filename : string)
    : M (gmap string string) unit :=
  let full_filename := Py.os_path_join search_path filename in
  if String.eqb (Py.splitext filename).2 ".desktop" then
    desktop_entry ← lift (DesktopEntry h full_filename);
    if bool_decide ("application/pdf" ∈ getMimeTypes desktop_entry)
       && negb (String.eqb (getName desktop_entry) "dangerzone")
    then modify (<[getName desktop_entry := getExec desktop_entry]>)
    else mret tt
  else mret tt.

Definition find_in_search_path (search_path : string) : M (gmap string string) unit :=
  try_except_only is_FileNotFoundError
    (filenames ← lift (os_listdir h search_path);
     for_each filenames (find_desktop_file search_path))
    (mret tt).

Definition search_paths : list string :=
  [ "/usr/share/applications";
    "/usr/local/share/applications";
    os_path_expanduser h "~/.local/share/applications" ].

Definition find_pdf_viewers_body : M (gmap string string) unit :=
  if String.eqb (platform_system h) "Darwin" then
    match LSCopyAllRoleHandlersForContentType h "com.adobe.pdf" with
    | Some bundle_identifiers => for_each bundle_identifiers find_bundle
    | None => mthrow TypeError
    end
  else if String.eqb (platform_system h) "Linux" then
    for_each search_paths find_in_search_path
  else mret tt.

Definition _find_pdf_viewers : result (gmap string string) :=
  match find_pdf_viewers_body ∅ with
  | (Ok _, pdf_viewers) => Ok pdf_viewers
  | (Raise e, _) => Raise e
  end.

(** [__init__] preloads the registry. *)
Definition GuiCommon_init : result GuiCommon :=
  match _find_pdf_viewers with
  | Ok viewers => Ok {| pdf_viewers := viewers |}
  | Raise e => Raise e
  end.

(** *** open_pdf_viewer *)
Definition open_pdf_viewer (self : GuiCommon) (filename : string) : M GuiState unit :=
  open_app ← settings_get "open_app";
  if dict_contains (pdf_viewers self) open_app then
    if String.eqb (platform_system h) "Darwin" then
      bundle_identifier ← lift (dict_getitem (pdf_viewers self) open_app);
      let args := ["open"; "-b"; bundle_identifier; filename] in
      print h (command_line args) ;;
      subprocess_run_ h args ;;
      mret tt
    else if String.eqb (platform_system h) "Linux" then
      template ← lift (dict_getitem (pdf_viewers self) open_app);
      args ← lift (Py.shlex_split template);
      let args := substitute filename args in
      print h (command_line args) ;;
      subprocess_Popen_ h args
    else mret tt
  else mret tt.

(** *** ensure_docker_group_preference *)
Definition ensure_docker_group_preference : M GuiState bool :=
  prefers ← settings_get "linux_prefers_typing_password";
  if py_eq_True prefers then mret true
  else
    try_except
      (gr_mem ← grp_getgrnam_ h "docker"; mret (Some gr_mem))
      (mret None)
    ≫= λ groupinfo,
    match groupinfo with
    | None => mret true
    | Some gr_mem =>
        username ← getpass_getuser_ h;
        if negb (bool_decide (username ∈ gr_mem)) then
          return_code ← Alert_launch h group_message
                          "I'll type my password each time"
                          (Some "Add my user to the 'docker' group");
          if return_code =? QDialog.Accepted then
            settings_set "linux_prefers_typing_password" (VBool true) ;;
            settings_save ;;
            mret true
          else if return_code =? 2 then
            settings_set "linux_prefers_typing_password" (VBool false) ;;
            settings_save ;;
            returncode ← subprocess_run_ h (usermod_command username);
            (if returncode =? 0
             then Alert_launch h relogin_message "Ok" None
             else Alert_launch h usermod_failed_message "Ok" None) ;;
            mret false
          else mret false
        else mret true
    end.

(** *** ensure_docker_service_is_started

    Every path through the outer [if] that does not return [True] falls
    through to its last statement, [return False]. *)
Definition ensure_docker_service_is_started : M GuiState bool :=
  ready ← is_docker_ready_ h;
  if negb ready then
    return_code ← Alert_launch h service_message "Ok" None;
    if return_code =? QDialog.Accepted then
      returncode ← subprocess_run_ h
        ["/usr/bin/pkexec"; get_resource_path h "enable_docker_service.sh"];
      if returncode =? 0 then
        ready_now ← is_docker_ready_ h;
        if (ready_now : bool) then mret true
        else
          Alert_launch h still_not_responding_message "Ok" None ;;
          mret false
      else
        Alert_launch h service_failed_message "Ok" None ;;
        mret false
    else mret false
  else mret true.

End GuiCommon.

(** *** get_window_icon

    The icon is given by the path of its file. *)
Definition get_window_icon (h : Host) : string :=
  if String.eqb (platform_system h) "Windows"
  then get_resource_path h "dangerzone.ico"
  else get_resource_path h "icon.png".

(** ** class Alert *)

(** What [Alert.__init__] sets up: the window, the logo, the message and the
    row of buttons, each with its text and the slot it is connected to. *)
Record AlertDialog := {
  windowTitle : string;
  windowIcon : string;
  isModal : bool;
  logo : string;
  label : string;
  buttons : list (string * button);
}.

(** [if extra_button_text:] holds for a text that is not empty. *)
Definition extra_button (extra_button_text : option string)
    : list (string * button) :=
  match extra_button_text with
  | Some text => if String.eqb text "" then [] else [(text, ExtraButton)]
  | None => []
  end.

Definition Alert_init (h : Host) (message ok_text : string)
    (extra_button_text : option string) : AlertDialog := {|
  windowTitle := "dangerzone";
  windowIcon := get_window_icon h;
  isModal := true;
  logo := get_resource_path h "icon.png";
  label := message;
  buttons :=
    [(ok_text, OkButton)] ++ extra_button extra_button_text
    ++ [("Cancel", CancelButton)];
|}.

(** The codes [launch] can return when the dialog is closed by one of its
    buttons. *)
Definition Alert_codes (dialog : AlertDialog) : list Z :=
  Alert_clicked <$> (buttons dialog).*2.

(** ** Sample hosts and states

    Concrete worlds on which the methods are run below. *)

(** A Linux host given by the answers that differ between the scenarios:
    the readiness checks, the dialogs, the privileged helpers, the members of
    the docker group, the directory listings and the desktop entries.  The
    user is [user]; a detached process always starts. *)
Definition linux_host (ready : nat → result bool) (dialog : nat → result Z)
    (helper : nat → result Z) (docker_group : result (list string))
    (listdir : string → result (list string))
    (entry : string → result DesktopEntryData) : Host := {|
  platform_system := "Linux";
  get_resource_path := λ name, "/usr/share/dangerzone/" +:+ name;
  is_docker_ready := ready;
  Alert_exec := dialog;
  subprocess_run := helper;
  subprocess_Popen := λ _, Ok tt;
  stdout_print := λ _, Ok tt;
  grp_getgrnam := λ _, docker_group;
  getpass_getuser := Ok "user";
  os_path_expanduser := λ p, "/home/user" +:+ Py.slice p 1 (Py.str_len p);
  os_listdir := listdir;
  DesktopEntry := entry;
  LSCopyAllRoleHandlersForContentType := λ _, None;
  LSCopyApplicationURLsForBundleIdentifier := λ _, None;
  os_path_exists := λ _, false;
  read_plist := λ _, Raise FileNotFoundError;
|}.

Definition no_applications : string → result (list string) :=
  λ _, Raise FileNotFoundError.
Definition no_entry : string → result DesktopEntryData :=
  λ _, Raise ParsingError.

(** Only [/usr/share/applications] exists; it holds a PDF viewer, the
    application's own entry and a file that is no desktop entry. *)
Definition listdir_usr_share (path : string) : result (list string) :=
  if String.eqb path "/usr/share/applications"
  then Ok ["evince.desktop"; "dangerzone.desktop"; "mimeinfo.cache"]
  else Raise FileNotFoundError.

Definition entry_usr_share (full_filename : string) : result DesktopEntryData :=
  if String.eqb full_filename "/usr/share/applications/evince.desktop" then
    Ok {| getMimeTypes := ["application/pdf"; "image/tiff"];
          getName := "Document Viewer"; getExec := "evince %U" |}
  else if String.eqb full_filename "/usr/share/applications/dangerzone.desktop" then
    Ok {| getMimeTypes := ["application/pdf"];
          getName := "dangerzone"; getExec := "dangerzone %f" |}
  else Raise ParsingError.

(** The same directory with one more file, which [DesktopEntry] cannot
    parse. *)
Definition listdir_with_broken (path : string) : result (list string) :=
  if String.eqb path "/usr/share/applications"
  then Ok ["evince.desktop"; "broken.desktop"]
  else Raise FileNotFoundError.

Definition always {A} (a : A) : nat → result A := λ _, Ok a.

(** Docker is running, the docker group is missing, every dialog is
    cancelled. *)
Definition host_ready : Host :=
  linux_host (always true) (always QDialog.Rejected) (always 0) (Raise KeyError)
    listdir_usr_share entry_usr_share.

(** The user is not in the docker group, picks the extra button of the first
    dialog and confirms the next one; [usermod] succeeds. *)
Definition host_add_to_group : Host :=
  linux_host (always true)
    (λ n, match n with O => Ok (Alert_clicked ExtraButton)
                     | _ => Ok (Alert_clicked OkButton) end)
    (always 0) (Ok ["root"]) no_applications no_entry.

(** The user is not in the docker group and cancels the dialog. *)
Definition host_cancel : Host :=
  linux_host (always true) (always (Alert_clicked CancelButton)) (always 0)
    (Ok ["root"]) no_applications no_entry.

(** Docker is down; the user accepts, the helper succeeds and the service
    answers at the second check. *)
Definition host_service_restarts : Host :=
  linux_host (λ n, match n with O => Ok false | _ => Ok true end)
    (always QDialog.Accepted) (always 0) (Raise KeyError)
    no_applications no_entry.

(** A directory holds an entry file that does not parse. *)
Definition host_broken_entry : Host :=
  linux_host (always true) (always QDialog.Rejected) (always 0) (Raise KeyError)
    listdir_with_broken entry_usr_share.

(** A host that is neither Darwin nor Linux. *)
Definition host_windows : Host := {|
  platform_system := "Windows";
  get_resource_path := λ name, name;
  is_docker_ready := always true;
  Alert_exec := always QDialog.Rejected;
  subprocess_run := always 0;
  subprocess_Popen := always tt;
  stdout_print := always tt;
  grp_getgrnam := λ _, Raise KeyError;
  getpass_getuser := Ok "user";
  os_path_expanduser := λ p, p;
  os_listdir := no_applications;
  DesktopEntry := no_entry;
  LSCopyAllRoleHandlersForContentType := λ _, None;
  LSCopyApplicationURLsForBundleIdentifier := λ _, None;
  os_path_exists := λ _, false;
  read_plist := λ _, Raise FileNotFoundError;
|}.

(** pkexec is not installed: running a privileged helper raises. *)
Definition host_no_pkexec : Host :=
  linux_host (always false) (always QDialog.Accepted)
    (λ _, Raise FileNotFoundError) (Ok ["root"]) no_applications no_entry.

(** A Linux host on which every call answers. *)
Definition host_calm : Host :=
  linux_host (always true) (always QDialog.Rejected) (always 0) (Ok ["root"])
    listdir_usr_share
    (λ _, Ok {| getMimeTypes := ["application/pdf"]; getName := "Document Viewer";
                getExec := "evince %U" |}).

(** The application directory holds a PDF viewer and the desktop file of
    the application itself, whose name is Dangerzone. *)
Definition host_own_entry : Host :=
  linux_host (always true) (always QDialog.Rejected) (always 0) (Raise KeyError)
    (λ path,
       if String.eqb path "/usr/share/applications"
       then Ok ["evince.desktop"; "dangerzone.desktop"]
       else Raise FileNotFoundError)
    (λ full_filename,
       if String.eqb full_filename "/usr/share/applications/evince.desktop" then
         Ok {| getMimeTypes := ["application/pdf"; "image/tiff"];
               getName := "Document Viewer"; getExec := "evince %U" |}
       else
         Ok {| getMimeTypes := ["application/pdf"];
               getName := "Dangerzone"; getExec := "dangerzone %f" |}).

(** The user is not in the docker group and clicks the first button: the
    password will be typed each time. *)
Definition host_types_password : Host :=
  linux_host (always true) (always (Alert_clicked OkButton)) (always 0)
    (Ok ["root"]) no_applications no_entry.

(** The user picks the extra button, but usermod exits with code 126. *)
Definition host_usermod_fails : Host :=
  linux_host (always true)
    (λ n, match n with O => Ok (Alert_clicked ExtraButton)
                     | _ => Ok (Alert_clicked OkButton) end)
    (always 126) (Ok ["root"]) no_applications no_entry.

(** The user is a member of the docker group. *)
Definition host_member : Host :=
  linux_host (always true) (always QDialog.Rejected) (always 0)
    (Ok ["root"; "user"]) no_applications no_entry.

(** A Mac on which Preview and the application itself are registered for
    PDF files; a third handler has no application URL. *)
Definition host_darwin : Host := {|
  platform_system := "Darwin";
  get_resource_path := λ name, "/Applications/Dangerzone.app/Contents/Resources/" +:+ name;
  is_docker_ready := always true;
  Alert_exec := always QDialog.Rejected;
  subprocess_run := always 1;
  subprocess_Popen := always tt;
  stdout_print := always tt;
  grp_getgrnam := λ _, Raise KeyError;
  getpass_getuser := Ok "user";
  os_path_expanduser := λ p, p;
  os_listdir := no_applications;
  DesktopEntry := no_entry;
  LSCopyAllRoleHandlersForContentType := λ _,
    Some ["com.apple.Preview"; "press.freedom.dangerzone"; "com.example.gone"];
  LSCopyApplicationURLsForBundleIdentifier := λ id,
    if String.eqb id "com.apple.Preview" then Some ["/System/Applications/Preview.app"]
    else if String.eqb id "press.freedom.dangerzone" then Some ["/Applications/Dangerzone.app"]
    else None;
  os_path_exists := λ _, true;
  read_plist := λ path,
    if String.eqb path "/System/Applications/Preview.app/Contents/Info.plist"
    then Ok {[ "CFBundleName" := "Preview" ]}
    else Ok {[ "CFBundleName" := "Dangerzone" ]};
|}.

(** The registry of [host_darwin]. *)
Definition preview_registry : GuiCommon :=
  {| pdf_viewers := {[ "Preview" := "com.apple.Preview" ]} |}.

(** A registry whose template has no placeholder. *)
Definition plain_registry : GuiCommon :=
  {| pdf_viewers := {[ "Viewer" := "xdg-open --new-window" ]} |}.

(** Two directories hold an entry of the same name: the system one and the
    one of the user, which is scanned last. *)
Definition host_two_directories : Host :=
  linux_host (always true) (always QDialog.Rejected) (always 0) (Raise KeyError)
    (λ path,
       if String.eqb path "/usr/share/applications" then Ok ["evince.desktop"]
       else if String.eqb path "/home/user/.local/share/applications"
       then Ok ["evince.desktop"; "notes.txt"]
       else Raise FileNotFoundError)
    (λ full_filename,
       if String.eqb full_filename "/usr/share/applications/evince.desktop" then
         Ok {| getMimeTypes := ["application/pdf"];
               getName := "Document Viewer"; getExec := "evince %U" |}
       else
         Ok {| getMimeTypes := ["application/pdf"];
               getName := "Document Viewer"; getExec := "evince --fullscreen %U" |}).

(** The docker group exists, but the current user has no name. *)
Definition host_no_user : Host := {|
  platform_system := "Linux";
  get_resource_path := λ name, "/usr/share/dangerzone/" +:+ name;
  is_docker_ready := always true;
  Alert_exec := always QDialog.Rejected;
  subprocess_run := always 0;
  subprocess_Popen := always tt;
  stdout_print := always tt;
  grp_getgrnam := λ _, Ok ["root"];
  getpass_getuser := Raise KeyError;
  os_path_expanduser := λ p, p;
  os_listdir := no_applications;
  DesktopEntry := no_entry;
  LSCopyAllRoleHandlersForContentType := λ _, None;
  LSCopyApplicationURLsForBundleIdentifier := λ _, None;
  os_path_exists := λ _, false;
  read_plist := λ _, Raise FileNotFoundError;
|}.

(** The console is ASCII only: printing a command line, which starts with
    the bullet U+2023, raises UnicodeEncodeError. *)
Definition host_ascii_stdout : Host := {|
  platform_system := "Linux";
  get_resource_path := λ name, "/usr/share/dangerzone/" +:+ name;
  is_docker_ready := always true;
  Alert_exec := always QDialog.Rejected;
  subprocess_run := always 0;
  subprocess_Popen := always tt;
  stdout_print := λ _, Raise UnicodeEncodeError;
  grp_getgrnam := λ _, Raise KeyError;
  getpass_getuser := Ok "user";
  os_path_expanduser := λ p, "/home/user" +:+ Py.slice p 1 (Py.str_len p);
  os_listdir := listdir_usr_share;
  DesktopEntry := entry_usr_share;
  LSCopyAllRoleHandlersForContentType := λ _, None;
  LSCopyApplicationURLsForBundleIdentifier := λ _, None;
  os_path_exists := λ _, false;
  read_plist := λ _, Raise FileNotFoundError;
|}.

(** A Mac on which LaunchServices has no handler list for PDF files: the
    call returns None. *)
Definition host_no_handlers : Host := {|
  platform_system := "Darwin";
  get_resource_path := λ name, "/Applications/Dangerzone.app/Contents/Resources/" +:+ name;
  is_docker_ready := always true;
  Alert_exec := always QDialog.Rejected;
  subprocess_run := always 0;
  subprocess_Popen := always tt;
  stdout_print := always tt;
  grp_getgrnam := λ _, Raise KeyError;
  getpass_getuser := Ok "user";
  os_path_expanduser := λ p, p;
  os_listdir := no_applications;
  DesktopEntry := no_entry;
  LSCopyAllRoleHandlersForContentType := λ _, None;
  LSCopyApplicationURLsForBundleIdentifier := λ _, None;
  os_path_exists := λ _, false;
  read_plist := λ _, Raise FileNotFoundError;
|}.

(** Settings that select the viewer [open_app] and leave the password
    preference at [prefers], with nothing done yet. *)
Definition initial_state (open_app : string) (prefers : value) : GuiState := {|
  settings := λ key,
    if String.eqb key "open_app" then VStr open_app
    else if String.eqb key "linux_prefers_typing_password" then prefers
    else VNone;
  saved_settings := λ key,
    if String.eqb key "open_app" then VStr open_app
    else if String.eqb key "linux_prefers_typing_password" then prefers
    else VNone;
  trace := [];
|}.

(** A registry with one viewer. *)
Definition evince_registry : GuiCommon :=
  {| pdf_viewers := {[ "Document Viewer" := "evince %U" ]} |}.

(** A registry whose only command template opens a quotation and never
    closes it. *)
Definition unclosed_registry : GuiCommon :=
  {| pdf_viewers := {[ "Viewer" := "viewer --title='my files %f" ]} |}.


(** ** Vocabulary of the properties *)

(** The state [st] after the further events [t], with the settings as they
    were. *)
Definition extend (st : GuiState) (t : list event) : GuiState :=
  {| settings := settings st; saved_settings := saved_settings st;
     trace := trace st ++ t |}.

Definition prefers_typing_password (st : GuiState) : bool :=
  py_eq_True (settings st "linux_prefers_typing_password").

(** How many dialogs, helper runs and readiness checks happened before
    [st]: the index of the next answer of each kind. *)
Definition dialogs_before (st : GuiState) : nat := count is_EvAlert (trace st).
Definition helpers_before (st : GuiState) : nat := count is_EvRun (trace st).
Definition checks_before (st : GuiState) : nat := count is_EvIsDockerReady (trace st).
Definition prints_before (st : GuiState) : nat := count is_EvPrint (trace st).
Definition launches_before (st : GuiState) : nat := count is_EvPopen (trace st).

(** The dialog of the group flow, as an event. *)
Definition group_dialog : event :=
  EvAlert group_message "I'll type my password each time"
    (Some "Add my user to the 'docker' group").

(** A notice: a dialog with the default button and no extra one. *)
Definition notice (message : string) : event := EvAlert message "Ok" None.

(** The paths through ensure_docker_group_preference, told apart by what the
    settings, the group database and the user answer. *)
Inductive path :=
| ShortCircuit
| GroupAbsent
| AlreadyMember
| DialogAnswered (code : Z)
| Interrupted.

Inductive takes (h : Host) (st : GuiState) : path → Prop :=
| takes_short_circuit :
    prefers_typing_password st = true →
    takes h st ShortCircuit
| takes_group_absent e :
    prefers_typing_password st = false →
    grp_getgrnam h "docker" = Raise e →
    takes h st GroupAbsent
| takes_already_member gr_mem username :
    prefers_typing_password st = false →
    grp_getgrnam h "docker" = Ok gr_mem →
    getpass_getuser h = Ok username →
    username ∈ gr_mem →
    takes h st AlreadyMember
| takes_dialog gr_mem username code :
    prefers_typing_password st = false →
    grp_getgrnam h "docker" = Ok gr_mem →
    getpass_getuser h = Ok username →
    username ∉ gr_mem →
    Alert_exec h (dialogs_before st) = Ok code →
    takes h st (DialogAnswered code)
| takes_no_user gr_mem e :
    prefers_typing_password st = false →
    grp_getgrnam h "docker" = Ok gr_mem →
    getpass_getuser h = Raise e →
    takes h st Interrupted
| takes_no_dialog gr_mem username e :
    prefers_typing_password st = false →
    grp_getgrnam h "docker" = Ok gr_mem →
    getpass_getuser h = Ok username →
    username ∉ gr_mem →
    Alert_exec h (dialogs_before st) = Raise e →
    takes h st Interrupted.

(** The two paths on which the dialog was answered with Accepted or with the
    code of the extra button. *)
Definition writing_path (p : path) : bool :=
  match p with
  | DialogAnswered code => (code =? QDialog.Accepted) || (code =? 2)
  | _ => false
  end.

Definition settings_untouched (st st' : GuiState) : Prop :=
  settings st' = settings st
  ∧ saved_settings st' = saved_settings st
  ∧ count is_settings_write (trace st') = count is_settings_write (trace st).

(** The key was set, to [VBool b], and the settings were saved. *)
Definition preference_written (b : bool) (st st' : GuiState) : Prop :=
  settings st' = <["linux_prefers_typing_password" := VBool b]> (settings st)
  ∧ saved_settings st' = settings st'
  ∧ count is_settings_write (trace st') = (count is_settings_write (trace st) + 2)%nat.

(** What the specification says of one token: a placeholder becomes the file path,
    any other token stays. *)
Definition fill (filename : string) (token : string) : string :=
  if is_placeholder token then filename else token.

(** The template has a placeholder at position [i] and nowhere else. *)
Definition only_placeholder_at (tokens : list string) (i : nat) : Prop :=
  (∃ token, tokens !! i = Some token ∧ is_placeholder token = true)
  ∧ ∀ j token, tokens !! j = Some token → is_placeholder token = true → j = i.

(** No call of the host raises, apart from the two errors the module
    handles: a directory that is missing when it is listed, and any failure
    of the group lookup.  The condition on the entry files matters on Linux
    only.  On Darwin the build further needs what LaunchServices returns to
    be well formed: a handler list rather than None, and no empty list of
    URLs for a handler ([res[0][0]] is taken without a test); and the plist
    reader gives the entries as text (see [read_plist]). *)
Record calm (h : Host) : Prop := {
  calm_ready : ∀ n, ∃ ready, is_docker_ready h n = Ok ready;
  calm_dialog : ∀ n, ∃ code, Alert_exec h n = Ok code;
  calm_run : ∀ n, ∃ returncode, subprocess_run h n = Ok returncode;
  calm_popen : ∀ n, subprocess_Popen h n = Ok tt;
  calm_print : ∀ n, stdout_print h n = Ok tt;
  calm_user : ∃ username, getpass_getuser h = Ok username;
  calm_listdir : ∀ path e, os_listdir h path = Raise e → e = FileNotFoundError;
  calm_entry :
    platform_system h = "Linux" →
    ∀ full_filename, ∃ entry, DesktopEntry h full_filename = Ok entry;
  calm_handlers :
    platform_system h = "Darwin" →
    ∃ ids, LSCopyAllRoleHandlersForContentType h "com.adobe.pdf" = Some ids;
  calm_urls :
    platform_system h = "Darwin" →
    ∀ id, LSCopyApplicationURLsForBundleIdentifier h id ≠ Some [];
  calm_plist :
    platform_system h = "Darwin" →
    ∀ path, ∃ plist, read_plist h path = Ok plist;
}.

(** The template of the selected viewer, if it is used, can be tokenized. *)
Definition tokenizes (h : Host) (self : GuiCommon) (st : GuiState) : Prop :=
  ∀ name template,
    platform_system h = "Linux" →
    settings st "open_app" = VStr name →
    pdf_viewers self !! name = Some template →
    ∃ tokens, Py.shlex_split template = Ok tokens.

(** An entry of the registry is backed by a desktop file: a file with the
    extension [.desktop] in one of the search directories, whose entry
    declares the PDF type, the name and the command. *)
Definition from_desktop_file (h : Host) (name exec : string) : Prop :=
  ∃ search_path filenames filename entry,
    search_path ∈ search_paths h
    ∧ os_listdir h search_path = Ok filenames
    ∧ filename ∈ filenames
    ∧ (Py.splitext filename).2 = ".desktop"
    ∧ DesktopEntry h (Py.os_path_join search_path filename) = Ok entry
    ∧ "application/pdf" ∈ getMimeTypes entry
    ∧ getName entry = name
    ∧ getExec entry = exec.

(** An entry of the registry is backed by a bundle: a registered handler
    with an application URL and an Info.plist that gives the name. *)
Definition from_bundle (h : Host) (name bundle_identifier : string) : Prop :=
  ∃ handlers url urls plist,
    LSCopyAllRoleHandlersForContentType h "com.adobe.pdf" = Some handlers
    ∧ bundle_identifier ∈ handlers
    ∧ LSCopyApplicationURLsForBundleIdentifier h bundle_identifier = Some (url :: urls)
    ∧ os_path_exists h (Py.os_path_join url "Contents/Info.plist") = true
    ∧ read_plist h (Py.os_path_join url "Contents/Info.plist") = Ok plist
    ∧ plist !! "CFBundleName" = Some name.

(** The viewer a file of a search directory stands for, if any, as a pair of
    name and command; and the viewers of a directory and of all search
    directories, in the order of the scan. *)
Definition desktop_viewer (h : Host) (search_path filename : string)
    : option (string * string) :=
  if String.eqb (Py.splitext filename).2 ".desktop" then
    match DesktopEntry h (Py.os_path_join search_path filename) with
    | Ok entry =>
        if bool_decide ("application/pdf" ∈ getMimeTypes entry)
           && negb (String.eqb (getName entry) "dangerzone")
        then Some (getName entry, getExec entry)
        else None
    | Raise _ => None
    end
  else None.

Definition directory_viewers (h : Host) (search_path : string)
    : list (string * string) :=
  match os_listdir h search_path with
  | Ok filenames => omap (desktop_viewer h search_path) filenames
  | Raise _ => []
  end.

Definition scanned_viewers (h : Host) : list (string * string) :=
  search_paths h ≫= directory_viewers h.

(** [pdf_viewers[name] = exec] for a pair of name and command. *)
Definition register (viewers : gmap string string) (viewer : string * string)
    : gmap string string :=
  <[viewer.1 := viewer.2]> viewers.

(** The search directories can be read: listing one fails only because it
    is missing, and every desktop file listed can be parsed. *)
Record readable (h : Host) : Prop := {
  readable_listdir : ∀ search_path e,
    search_path ∈ search_paths h →
    os_listdir h search_path = Raise e → e = FileNotFoundError;
  readable_entry : ∀ search_path filenames filename,
    search_path ∈ search_paths h →
    os_listdir h search_path = Ok filenames →
    filename ∈ filenames →
    (Py.splitext filename).2 = ".desktop" →
    ∃ entry, DesktopEntry h (Py.os_path_join search_path filename) = Ok entry;
}.

(** ** Basic facts *)

Example shlex_split_words :
  Py.shlex_split "evince --page-label=1  %U" = Ok ["evince"; "--page-label=1"; "%U"].
Proof. reflexivity. Qed.

Example shlex_split_quoted :
  Py.shlex_split "sh -c 'xdg-open %f' 'my viewer'"
  = Ok ["sh"; "-c"; "xdg-open %f"; "my viewer"].
Proof. reflexivity. Qed.

Example shlex_split_dangling_escape :
  Py.shlex_split (String.append "viewer " (String Py.backslash ""))
  = Raise (ValueError "No escaped character").
Proof. reflexivity. Qed.

Example quote_plain : Py.quote "/tmp/safe.pdf" = "/tmp/safe.pdf".
Proof. reflexivity. Qed.

Example quote_blank : Py.quote "/tmp/my file.pdf" = "'/tmp/my file.pdf'".
Proof. reflexivity. Qed.

Example splitext_desktop :
  Py.splitext "evince.desktop" = ("evince", ".desktop")
  ∧ Py.splitext ".desktop" = (".desktop", "")
  ∧ Py.splitext "mimeinfo.cache" = ("mimeinfo", ".cache").
Proof. repeat split. Qed.

Example os_path_join_directory :
  Py.os_path_join "/usr/share/applications" "evince.desktop"
  = "/usr/share/applications/evince.desktop".
Proof. reflexivity. Qed.

Lemma count_app p t t' : count p (t ++ t') = (count p t + count p t')%nat.
Proof.
  induction t as [|e t IH]; simpl; [done|].
  destruct (p e); simpl; lia.
Qed.

Lemma extend_nil st : extend st [] = st.
Proof. destruct st; unfold extend; simpl. by rewrite app_nil_r. Qed.

Ltac unfold_monad :=
  repeat progress
    unfold is_docker_ready_, Alert_launch, subprocess_run_, subprocess_Popen_,
      grp_getgrnam_, getpass_getuser_, settings_get,
      settings_set, settings_save, print, calls, log, try_except,
      try_except_only, lift, get_state, modify, mbind, mret, mthrow,
      M_bind, M_ret, M_throw in *.

(** Brings the trace and the call counters of a goal to a normal form. *)
Ltac tidy :=
  cbn [settings saved_settings trace fst snd];
  repeat rewrite count_app;
  cbn [count is_EvAlert is_EvRun is_EvPopen is_EvPrint is_EvIsDockerReady
       is_settings_write];
  repeat rewrite Nat.add_0_r;
  repeat rewrite Nat.add_1_r;
  repeat rewrite <- app_assoc;
  cbn [app].

(** ** The group-membership flow *)

(** C6. If the settings record linux_prefers_typing_password as true,
    ensure_docker_group_preference returns True at once: the state, and with
    it the trace of dialogs, group lookups and helper runs, is the one it
    started from. *)
Theorem prefers_typing_short_circuit (h : Host) (st : GuiState) :
  settings st "linux_prefers_typing_password" = VBool true →
  ensure_docker_group_preference h st = (Ok true, st).
Proof.
  intros Hpref. unfold ensure_docker_group_preference. unfold_monad.
  cbn. by rewrite Hpref.
Qed.

Lemma prefers_typing_short_circuit_witness :
  ensure_docker_group_preference host_cancel
    (initial_state "Document Viewer" (VBool true))
  = (Ok true, initial_state "Document Viewer" (VBool true)).
Proof. apply prefers_typing_short_circuit. reflexivity. Defined.

(** C7. If looking up the docker group fails, whatever the error,
    ensure_docker_group_preference returns True and the error is not raised;
    nothing happens but the lookup itself: no dialog and no helper. *)
Theorem missing_group_is_success (h : Host) (st : GuiState) (e : exn) :
  grp_getgrnam h "docker" = Raise e →
  ∃ t, ensure_docker_group_preference h st = (Ok true, extend st t)
       ∧ Forall (λ ev, ev = EvGetgrnam "docker") t.
Proof.
  intros Hgrp. unfold ensure_docker_group_preference. unfold_monad. cbn.
  destruct (py_eq_True _).
  - exists []. by rewrite extend_nil.
  - rewrite Hgrp. exists [EvGetgrnam "docker"]. split; [done|].
    by constructor.
Qed.

Lemma missing_group_is_success_witness :
  ∃ t, ensure_docker_group_preference host_ready
         (initial_state "Document Viewer" VNone)
       = (Ok true, extend (initial_state "Document Viewer" VNone) t)
       ∧ Forall (λ ev, ev = EvGetgrnam "docker") t.
Proof. apply (missing_group_is_success host_ready _ KeyError). reflexivity. Defined.

(** C1, amended.  When the user is not in the docker group, picks the
    secondary action of the dialog and the privileged usermod helper exits
    with code 0, the settings key linux_prefers_typing_password is set to
    false and saved, the notice about logging out and back in is shown, and
    the function returns False. *)
Theorem add_to_group_returns_false (h : Host) (st : GuiState)
    (gr_mem : list string) (username : string) (closed : Z) :
  prefers_typing_password st = false →
  grp_getgrnam h "docker" = Ok gr_mem →
  getpass_getuser h = Ok username →
  username ∉ gr_mem →
  Alert_exec h (dialogs_before st) = Ok (Alert_clicked ExtraButton) →
  subprocess_run h (helpers_before st) = Ok 0 →
  Alert_exec h (S (dialogs_before st)) = Ok closed →
  ensure_docker_group_preference h st =
    (Ok false,
     {| settings :=
          <["linux_prefers_typing_password" := VBool false]> (settings st);
        saved_settings :=
          <["linux_prefers_typing_password" := VBool false]> (settings st);
        trace := trace st ++
          [ EvGetgrnam "docker"; EvGetuser; group_dialog;
            EvSettingsSet "linux_prefers_typing_password" (VBool false);
            EvSettingsSave;
            EvRun (usermod_command username);
            notice relogin_message ] |}).
Proof.
  unfold prefers_typing_password, dialogs_before, helpers_before.
  intros Hpref Hgrp Huser Hmem Hcode Hrun Hclosed.
  unfold ensure_docker_group_preference. unfold_monad.
  cbn. rewrite Hpref, Hgrp, Huser.
  rewrite bool_decide_eq_false_2 by done. cbn.
  tidy. rewrite Hcode. cbn. tidy. rewrite Hrun. cbn. tidy.
  by rewrite Hclosed.
Qed.

Lemma not_in_root_group : "user" ∉ ["root"].
Proof. intros Hin. inversion Hin as [|? ? ? Hin']; inversion Hin'. Qed.

Lemma add_to_group_returns_false_witness :
  (ensure_docker_group_preference host_add_to_group
     (initial_state "Document Viewer" VNone)).1 = Ok false.
Proof.
  rewrite (add_to_group_returns_false host_add_to_group _ ["root"] "user"
             (Alert_clicked OkButton));
    first [reflexivity | exact not_in_root_group].
Defined.

(** C1, as stated, fails: on a host where the user is not in the docker
    group, clicks the extra button and usermod exits with code 0, the method
    returns False, its last statement on that path. *)
Lemma add_to_group_counterexample :
  prefers_typing_password (initial_state "Document Viewer" VNone) = false
  ∧ grp_getgrnam host_add_to_group "docker" = Ok ["root"]
  ∧ getpass_getuser host_add_to_group = Ok "user"
  ∧ ("user" ∉ ["root"])
  ∧ Alert_exec host_add_to_group 0 = Ok (Alert_clicked ExtraButton)
  ∧ subprocess_run host_add_to_group 0 = Ok 0
  ∧ (ensure_docker_group_preference host_add_to_group
       (initial_state "Document Viewer" VNone)).1 = Ok false
  ∧ (ensure_docker_group_preference host_add_to_group
       (initial_state "Document Viewer" VNone)).1 ≠ Ok true.
Proof.
  repeat split; try reflexivity; [exact not_in_root_group | by vm_compute].
Qed.

(** Every run takes one of the paths. *)
Lemma takes_total (h : Host) (st : GuiState) : ∃ p, takes h st p.
Proof.
  destruct (prefers_typing_password st) eqn:Hpref.
  { exists ShortCircuit. by constructor. }
  destruct (grp_getgrnam h "docker") as [gr_mem|e] eqn:Hgrp.
  2: { exists GroupAbsent. by econstructor. }
  destruct (getpass_getuser h) as [username|e] eqn:Huser.
  2: { exists Interrupted. by eapply takes_no_user. }
  destruct (decide (username ∈ gr_mem)) as [Hin|Hout].
  { exists AlreadyMember. by econstructor. }
  destruct (Alert_exec h (dialogs_before st)) as [code|e] eqn:Hcode.
  - exists (DialogAnswered code). by econstructor.
  - exists Interrupted. by eapply takes_no_dialog.
Qed.

(** C9. ensure_docker_group_preference sets and saves the key
    linux_prefers_typing_password on the two paths where the dialog was
    shown and returned Accepted or the code of the extra button, and only
    there: on every other path (the short circuit, the absent group, the user
    who is a member already, the rejected dialog) the settings in memory, the
    saved settings and the number of settings writes are what they were. *)
Theorem settings_written_only_after_choice (h : Host) (st : GuiState) (p : path) :
  takes h st p →
  (writing_path p = false →
   settings_untouched st (ensure_docker_group_preference h st).2)
  ∧ (writing_path p = true →
     ∃ b, preference_written b st (ensure_docker_group_preference h st).2).
Proof.
  unfold prefers_typing_password, dialogs_before.
  intros Hp. unfold ensure_docker_group_preference. unfold_monad.
  unfold settings_untouched, preference_written.
  destruct Hp as [Hpref | e Hpref Hgrp | gr_mem username Hpref Hgrp Huser Hin
                 | gr_mem username code Hpref Hgrp Huser Hout Hcode
                 | gr_mem e Hpref Hgrp Huser
                 | gr_mem username e Hpref Hgrp Huser Hout Hcode];
    unfold prefers_typing_password, dialogs_before in *;
    cbn; rewrite Hpref; try rewrite Hgrp; try rewrite Huser; cbn;
    try (rewrite bool_decide_eq_false_2 by done; cbn);
    try (rewrite bool_decide_eq_true_2 by done; cbn);
    tidy; try rewrite Hcode; cbn; tidy.
  1-3, 5-6: split; [intros _; repeat split; lia | discriminate].
  destruct (code =? QDialog.Accepted) eqn:Hacc; cbn.
  { split; [discriminate|]. intros _. exists true. tidy. repeat split; lia. }
  destruct (code =? 2) eqn:Hextra; cbn.
  2: { split; [|discriminate]. intros _. tidy. repeat split; lia. }
  split; [discriminate|]. intros _. exists false.
  destruct (subprocess_run h _) as [returncode|]; cbn; tidy.
  2: { repeat split; lia. }
  destruct (returncode =? 0); cbn; tidy;
    destruct (Alert_exec h (S _)); cbn; tidy; repeat split; lia.
Qed.

Lemma settings_written_only_after_choice_witness :
  settings_untouched (initial_state "Document Viewer" VNone)
    (ensure_docker_group_preference host_cancel
       (initial_state "Document Viewer" VNone)).2.
Proof.
  apply (settings_written_only_after_choice host_cancel _
           (DialogAnswered QDialog.Rejected)); [|reflexivity].
  apply (takes_dialog _ _ ["root"] "user");
    first [reflexivity | exact not_in_root_group].
Defined.

(** ** The service-activation flow *)

(** Whatever the collaborators do, the flow returns True on two paths
    only. *)
Lemma service_flow_true_iff (h : Host) (st : GuiState) :
  (ensure_docker_service_is_started h st).1 = Ok true ↔
  is_docker_ready h (checks_before st) = Ok true
  ∨ (is_docker_ready h (checks_before st) = Ok false
     ∧ Alert_exec h (dialogs_before st) = Ok QDialog.Accepted
     ∧ subprocess_run h (helpers_before st) = Ok 0
     ∧ is_docker_ready h (S (checks_before st)) = Ok true).
Proof.
  unfold checks_before, dialogs_before, helpers_before.
  unfold ensure_docker_service_is_started. unfold_monad. cbn. tidy.
  destruct (is_docker_ready h (count _ _)) as [[|]|e]; cbn; tidy;
    [intuition congruence | | intuition congruence].
  destruct (Alert_exec h (count _ _)) as [code|e]; cbn;
    [|intuition congruence].
  destruct (code =? QDialog.Accepted) eqn:Hacc; cbn; tidy.
  2: { apply Z.eqb_neq in Hacc. intuition congruence. }
  apply Z.eqb_eq in Hacc. subst code.
  destruct (subprocess_run h _) as [returncode|e]; cbn;
    [|intuition congruence].
  destruct (returncode =? 0) eqn:Hzero; cbn; tidy.
  2: { apply Z.eqb_neq in Hzero.
       destruct (Alert_exec h (S _)); cbn; intuition congruence. }
  apply Z.eqb_eq in Hzero. subst returncode.
  destruct (is_docker_ready h (S _)) as [[|]|e]; cbn; tidy;
    [intuition congruence | | intuition congruence].
  destruct (Alert_exec h (S _)); cbn; intuition congruence.
Qed.



(** ** The viewer launcher *)

(** C8. If the viewer name stored in the settings is not a key of the
    registry, open_pdf_viewer does nothing: it returns with the state it was
    called in, so no process was started and nothing was printed. *)
Theorem unknown_viewer_is_noop (h : Host) (self : GuiCommon)
    (filename : string) (st : GuiState) :
  (∀ name, settings st "open_app" = VStr name → pdf_viewers self !! name = None) →
  open_pdf_viewer h self filename st = (Ok tt, st).
Proof.
  intros Hkey. unfold open_pdf_viewer. unfold_monad. cbn.
  destruct (settings st "open_app") as [| | |name] eqn:Happ; cbn; try done.
  rewrite (Hkey name eq_refl).
  by rewrite bool_decide_eq_false_2 by (by intros [? ?]).
Qed.

Lemma unknown_viewer_is_noop_witness :
  open_pdf_viewer host_ready evince_registry "/tmp/safe.pdf"
    (initial_state "Okular" VNone)
  = (Ok tt, initial_state "Okular" VNone).
Proof.
  apply unknown_viewer_is_noop.
  intros name Hname. cbn in Hname. injection Hname as <-. reflexivity.
Defined.

(** C10. On a platform that is neither Darwin nor Linux, open_pdf_viewer
    does nothing, for every file path and every registry: it returns with
    the state it was called in. *)
Theorem other_platform_is_noop (h : Host) (self : GuiCommon)
    (filename : string) (st : GuiState) :
  platform_system h ≠ "Darwin" →
  platform_system h ≠ "Linux" →
  open_pdf_viewer h self filename st = (Ok tt, st).
Proof.
  intros Hdarwin Hlinux. unfold open_pdf_viewer. unfold_monad. cbn.
  apply String.eqb_neq in Hdarwin, Hlinux. rewrite Hdarwin, Hlinux.
  by destruct (dict_contains _ _).
Qed.

Lemma other_platform_is_noop_witness :
  open_pdf_viewer host_windows evince_registry "/tmp/safe.pdf"
    (initial_state "Document Viewer" VNone)
  = (Ok tt, initial_state "Document Viewer" VNone).
Proof. apply other_platform_is_noop; discriminate. Defined.

(** The loop over the indices, started at the end of a prefix it has already
    treated. *)
Lemma substitute_from (filename : string) (treated rest : list string) :
  fold_left (substitute_at filename) (seq (length treated) (length rest)) (treated ++ rest)
  = treated ++ map (fill filename) rest.
Proof.
  revert treated. induction rest as [|token rest IH]; intros treated; [reflexivity|].
  cbn [length seq fold_left map].
  assert (substitute_at filename (treated ++ token :: rest) (length treated)
          = (treated ++ [fill filename token]) ++ rest) as ->.
  { unfold substitute_at, fill.
    rewrite list_lookup_middle by reflexivity.
    destruct (is_placeholder token).
    - rewrite <- (Nat.add_0_r (length treated)) at 1.
      rewrite insert_app_r. cbn. by rewrite <- app_assoc.
    - by rewrite <- app_assoc. }
  specialize (IH (treated ++ [fill filename token])).
  rewrite length_app in IH. cbn [length] in IH. rewrite Nat.add_1_r in IH.
  rewrite IH. by rewrite <- app_assoc.
Qed.

(** The index loop of the source is the map the specification describes. *)
Lemma substitute_is_map (filename : string) (args : list string) :
  substitute filename args = map (fill filename) args.
Proof. apply (substitute_from filename [] args). Qed.

(** C3, amended.  On Linux, for every file path and every command template
    that shlex.split tokenizes, open_pdf_viewer builds the argument list made
    of the template's tokens, in which every token equal to one of the four
    placeholders is replaced by the file path and every other token stands
    unchanged at its position; it prints the command line of that list and,
    unless the print raises, passes the list to Popen.  For a template with
    exactly one placeholder, the file path stands at that position, and at
    another position only where the template itself has the file path as a
    token. *)
Theorem template_launch (h : Host) (self : GuiCommon) (st : GuiState)
    (filename name template : string) (tokens : list string) :
  platform_system h = "Linux" →
  settings st "open_app" = VStr name →
  pdf_viewers self !! name = Some template →
  Py.shlex_split template = Ok tokens →
  ∃ args,
    open_pdf_viewer h self filename st
    = match stdout_print h (prints_before st) with
      | Ok _ =>
          (subprocess_Popen h (launches_before st),
           extend st [EvPrint (command_line args); EvPopen args])
      | Raise e => (Raise e, extend st [EvPrint (command_line args)])
      end
    ∧ length args = length tokens
    ∧ (∀ i token, tokens !! i = Some token →
         args !! i = Some (if is_placeholder token then filename else token))
    ∧ (∀ i, only_placeholder_at tokens i →
         args !! i = Some filename
         ∧ ∀ j, j ≠ i → args !! j = Some filename → tokens !! j = Some filename).
Proof.
  unfold prints_before, launches_before.
  intros Hlinux Happ Hkey Hsplit.
  exists (map (fill filename) tokens).
  split; [|split; [|split]].
  - unfold open_pdf_viewer. unfold_monad. cbn.
    rewrite Happ, Hlinux. cbn [dict_contains dict_getitem]. rewrite Hkey.
    rewrite bool_decide_eq_true_2 by eauto.
    cbn. rewrite Hsplit. cbn. tidy.
    rewrite substitute_is_map.
    destruct (stdout_print h _) as [[]|e]; cbn; tidy; reflexivity.
  - apply length_map.
  - intros i token Hi. rewrite list_lookup_fmap, Hi. reflexivity.
  - intros i [(token & Hi & Hph) Honly]. split.
    + rewrite list_lookup_fmap, Hi. cbn. unfold fill. by rewrite Hph.
    + intros j Hji Hj. rewrite list_lookup_fmap in Hj.
      destruct (tokens !! j) as [other|] eqn:Hother; [|done].
      cbn in Hj. unfold fill in Hj.
      destruct (is_placeholder other) eqn:Hph'; [|done].
      by specialize (Honly j other Hother Hph').
Qed.

Lemma template_launch_witness :
  ∃ args,
    open_pdf_viewer host_ready evince_registry "/tmp/safe.pdf"
      (initial_state "Document Viewer" VNone)
    = match stdout_print host_ready
              (prints_before (initial_state "Document Viewer" VNone)) with
      | Ok _ =>
          (subprocess_Popen host_ready
             (launches_before (initial_state "Document Viewer" VNone)),
           extend (initial_state "Document Viewer" VNone)
             [EvPrint (command_line args); EvPopen args])
      | Raise e =>
          (Raise e,
           extend (initial_state "Document Viewer" VNone)
             [EvPrint (command_line args)])
      end
    ∧ length args = length ["evince"; "%U"]
    ∧ (∀ i token, ["evince"; "%U"] !! i = Some token →
         args !! i = Some (if is_placeholder token then "/tmp/safe.pdf" else token))
    ∧ (∀ i, only_placeholder_at ["evince"; "%U"] i →
         args !! i = Some "/tmp/safe.pdf"
         ∧ ∀ j, j ≠ i → args !! j = Some "/tmp/safe.pdf" →
                ["evince"; "%U"] !! j = Some "/tmp/safe.pdf").
Proof.
  apply (template_launch host_ready evince_registry _ "/tmp/safe.pdf"
           "Document Viewer" "evince %U"); reflexivity.
Defined.

(** C3, as stated, fails on three inputs.  A template whose quotation is
    never closed is not tokenized: shlex.split raises ValueError and no
    argument list is produced.  With the template [evince %U], which has
    exactly one placeholder, and a file called [evince], the file path stands
    at both positions of the launched command.  And on a console whose
    encoding has no U+2023 the print of the command line raises, so the
    argument list is built but never launched. *)
Lemma template_launch_counterexample :
  open_pdf_viewer host_ready unclosed_registry "/tmp/safe.pdf"
    (initial_state "Viewer" VNone)
  = (Raise (ValueError "No closing quotation"), initial_state "Viewer" VNone)
  ∧ Py.shlex_split "evince %U" = Ok ["evince"; "%U"]
  ∧ open_pdf_viewer host_ready evince_registry "evince"
      (initial_state "Document Viewer" VNone)
    = (Ok tt,
       extend (initial_state "Document Viewer" VNone)
         [EvPrint (command_line ["evince"; "evince"]);
          EvPopen ["evince"; "evince"]])
  ∧ open_pdf_viewer host_ascii_stdout evince_registry "/tmp/safe.pdf"
      (initial_state "Document Viewer" VNone)
    = (Raise UnicodeEncodeError,
       extend (initial_state "Document Viewer" VNone)
         [EvPrint (command_line ["evince"; "/tmp/safe.pdf"])]).
Proof. repeat split; by vm_compute. Qed.

(** ** The viewer registry *)

(** A property of the state that every round of a loop keeps is kept by the
    loop, whether it ends normally or by an exception. *)
Lemma for_each_keeps {S A} (P : S → Prop) (body : A → M S unit) (xs : list A) :
  (∀ x s, P s → P (body x s).2) →
  ∀ s, P s → P (for_each xs body s).2.
Proof.
  intros Hbody. induction xs as [|x xs IH]; intros s Hs; [done|].
  cbn. unfold mbind, M_bind.
  specialize (Hbody x s Hs).
  destruct (body x s) as [[[]|e] s']; cbn in *; auto.
Qed.

Lemma find_desktop_file_keeps_out (h : Host) (search_path filename : string)
    (viewers : gmap string string) :
  viewers !! "dangerzone" = None →
  (find_desktop_file h search_path filename viewers).2 !! "dangerzone" = None.
Proof.
  intros Hout. unfold find_desktop_file. unfold_monad.
  destruct (String.eqb _ ".desktop"); [|done].
  destruct (DesktopEntry h _) as [entry|e]; [|done].
  destruct (bool_decide _); cbn; [|done].
  destruct (String.eqb (getName entry) "dangerzone") eqn:Hname; cbn; [done|].
  apply String.eqb_neq in Hname. by rewrite lookup_insert_ne.
Qed.

Lemma find_in_search_path_keeps_out (h : Host) (search_path : string)
    (viewers : gmap string string) :
  viewers !! "dangerzone" = None →
  (find_in_search_path h search_path viewers).2 !! "dangerzone" = None.
Proof.
  intros Hout. unfold find_in_search_path, try_except_only.
  unfold lift, mbind, M_bind at 1.
  destruct (os_listdir h search_path) as [filenames|e].
  - pose proof (for_each_keeps (λ d : gmap string string, d !! "dangerzone" = None)
                  (find_desktop_file h search_path) filenames
                  (find_desktop_file_keeps_out h search_path) viewers Hout) as Hloop.
    destruct (for_each filenames _ viewers) as [[[]|e] d]; cbn in *; [done|].
    by destruct (is_FileNotFoundError e).
  - by destruct (is_FileNotFoundError e).
Qed.

Lemma find_bundle_keeps_out (h : Host) (bundle_identifier : string)
    (viewers : gmap string string) :
  viewers !! "Dangerzone" = None →
  (find_bundle h bundle_identifier viewers).2 !! "Dangerzone" = None.
Proof.
  intros Hout. unfold find_bundle. unfold_monad.
  destruct (LSCopyApplicationURLsForBundleIdentifier h _) as [[|url urls]|];
    [done| |done].
  destruct (os_path_exists h _); cbn; [|done].
  destruct (read_plist h _) as [plist|e]; [|done].
  destruct (plist !! "CFBundleName") as [name|]; [|done].
  destruct (String.eqb name ""); cbn; [done|].
  destruct (String.eqb name "Dangerzone") eqn:Hname; cbn; [done|].
  apply String.eqb_neq in Hname. by rewrite lookup_insert_ne.
Qed.

(** Each platform branch keeps the literal of its own guard out of the
    dictionary, however the build ends: [Dangerzone] on Darwin, [dangerzone]
    in lower case on Linux. *)
Lemma darwin_body_keeps_out (h : Host) :
  platform_system h = "Darwin" →
  (find_pdf_viewers_body h ∅).2 !! "Dangerzone" = None.
Proof.
  intros Hdarwin. unfold find_pdf_viewers_body. rewrite Hdarwin.
  cbn [String.eqb Ascii.eqb Bool.eqb].
  destruct (LSCopyAllRoleHandlersForContentType h _) as [ids|]; [|done].
  apply (for_each_keeps (λ d : gmap string string, d !! "Dangerzone" = None));
    [intros id d Hd; by apply find_bundle_keeps_out | done].
Qed.

Lemma linux_body_keeps_out (h : Host) :
  platform_system h = "Linux" →
  (find_pdf_viewers_body h ∅).2 !! "dangerzone" = None.
Proof.
  intros Hlinux. unfold find_pdf_viewers_body. rewrite Hlinux.
  cbn [String.eqb Ascii.eqb Bool.eqb].
  apply (for_each_keeps (λ d : gmap string string, d !! "dangerzone" = None));
    [intros dir d Hd; by apply find_in_search_path_keeps_out | done].
Qed.

(** C5 fails on Linux.  The guard of the desktop-entry branch compares the
    name with [dangerzone] in lower case, while the bundle branch excludes
    [Dangerzone] and the messages of the module call the application
    Dangerzone.  On a host whose application directory holds the
    application's own desktop file, named Dangerzone, the build registers
    the application as a PDF viewer of that name, and with it selected
    open_pdf_viewer launches the application on the document. *)
Theorem own_entry_is_registered_on_linux :
  _find_pdf_viewers host_own_entry
  = Ok {[ "Document Viewer" := "evince %U"; "Dangerzone" := "dangerzone %f" ]}
  ∧ ∀ self, GuiCommon_init host_own_entry = Ok self →
      open_pdf_viewer host_own_entry self "/tmp/safe.pdf"
        (initial_state "Dangerzone" VNone)
      = (Ok tt,
         extend (initial_state "Dangerzone" VNone)
           [ EvPrint (command_line ["dangerzone"; "/tmp/safe.pdf"]);
             EvPopen ["dangerzone"; "/tmp/safe.pdf"] ]).
Proof.
  split; [by vm_compute|].
  intros self Hinit. vm_compute in Hinit. injection Hinit as <-. by vm_compute.
Qed.

(** ** Exceptions *)

Lemma for_each_returns {S A} (body : A → M S unit) (xs : list A) :
  (∀ x s, ∃ s', body x s = (Ok tt, s')) →
  ∀ s, ∃ s', for_each xs body s = (Ok tt, s').
Proof.
  intros Hbody. induction xs as [|x xs IH]; intros s; [by eexists|].
  cbn. unfold mbind, M_bind. destruct (Hbody x s) as [s' ->]. apply IH.
Qed.

Lemma find_desktop_file_returns (h : Host) (search_path filename : string)
    (viewers : gmap string string) :
  calm h → platform_system h = "Linux" →
  ∃ d, find_desktop_file h search_path filename viewers = (Ok tt, d).
Proof.
  intros Hcalm Hlinux. unfold find_desktop_file. unfold_monad.
  destruct (String.eqb _ ".desktop"); [|by eexists].
  destruct (calm_entry h Hcalm Hlinux (Py.os_path_join search_path filename))
    as [entry ->].
  destruct (_ && _); by eexists.
Qed.

(** A directory that is missing is skipped: the dictionary stays as it is. *)
Lemma missing_directory_skipped (h : Host) (search_path : string)
    (viewers : gmap string string) :
  os_listdir h search_path = Raise FileNotFoundError →
  find_in_search_path h search_path viewers = (Ok tt, viewers).
Proof.
  intros Hmissing. unfold find_in_search_path. unfold_monad.
  by rewrite Hmissing.
Qed.

Lemma find_in_search_path_returns (h : Host) (search_path : string)
    (viewers : gmap string string) :
  calm h → platform_system h = "Linux" →
  ∃ d, find_in_search_path h search_path viewers = (Ok tt, d).
Proof.
  intros Hcalm Hlinux.
  destruct (os_listdir h search_path) as [filenames|e] eqn:Hlist.
  - unfold find_in_search_path, try_except_only, lift, mbind, M_bind at 1.
    rewrite Hlist.
    destruct (for_each_returns (find_desktop_file h search_path) filenames
                (λ x s, find_desktop_file_returns h search_path x s Hcalm Hlinux)
                viewers)
      as [d ->].
    by eexists.
  - rewrite (calm_listdir h Hcalm _ _ Hlist) in Hlist.
    rewrite missing_directory_skipped by done. by eexists.
Qed.

Lemma find_bundle_returns (h : Host) (bundle_identifier : string)
    (viewers : gmap string string) :
  calm h → platform_system h = "Darwin" →
  ∃ d, find_bundle h bundle_identifier viewers = (Ok tt, d).
Proof.
  intros Hcalm Hdarwin. unfold find_bundle. unfold_monad.
  pose proof (calm_urls h Hcalm Hdarwin bundle_identifier) as Hurls.
  destruct (LSCopyApplicationURLsForBundleIdentifier h _) as [[|url urls]|];
    [done| |by eexists].
  destruct (os_path_exists h _); cbn; [|by eexists].
  match goal with
  | |- context [read_plist h ?plist_path] =>
      destruct (calm_plist h Hcalm Hdarwin plist_path) as [plist ->]
  end.
  destruct (plist !! "CFBundleName") as [name|]; [|by eexists].
  destruct (_ && _); by eexists.
Qed.

Lemma find_pdf_viewers_returns (h : Host) :
  calm h → ∃ viewers, _find_pdf_viewers h = Ok viewers.
Proof.
  intros Hcalm. unfold _find_pdf_viewers, find_pdf_viewers_body.
  destruct (String.eqb (platform_system h) "Darwin") eqn:Hdarwin.
  - apply String.eqb_eq in Hdarwin.
    destruct (calm_handlers h Hcalm Hdarwin) as [ids ->].
    destruct (for_each_returns (find_bundle h) ids
                (λ x s, find_bundle_returns h x s Hcalm Hdarwin) ∅) as [d ->].
    by eexists.
  - destruct (String.eqb (platform_system h) "Linux") eqn:Hlinux; [|by eexists].
    apply String.eqb_eq in Hlinux.
    destruct (for_each_returns (find_in_search_path h) (search_paths h)
                (λ x s, find_in_search_path_returns h x s Hcalm Hlinux) ∅)
      as [d ->].
    by eexists.
Qed.

Lemma open_pdf_viewer_returns (h : Host) (self : GuiCommon) (filename : string)
    (st : GuiState) :
  calm h → tokenizes h self st →
  ∃ st', open_pdf_viewer h self filename st = (Ok tt, st').
Proof.
  intros Hcalm Htok. unfold open_pdf_viewer. unfold_monad. cbn.
  destruct (settings st "open_app") as [| | |name] eqn:Happ; cbn;
    try by eexists.
  destruct (pdf_viewers self !! name) as [descriptor|] eqn:Hkey.
  2: { rewrite bool_decide_eq_false_2 by (by intros [? ?]). by eexists. }
  rewrite bool_decide_eq_true_2 by eauto.
  destruct (String.eqb (platform_system h) "Darwin"); cbn.
  { tidy. rewrite (calm_print h Hcalm). cbn. tidy.
    destruct (calm_run h Hcalm (count is_EvRun (trace st))) as [returncode ->].
    by eexists. }
  destruct (String.eqb (platform_system h) "Linux") eqn:Hlinux; [|by eexists].
  apply String.eqb_eq in Hlinux.
  destruct (Htok name descriptor Hlinux Happ Hkey) as [tokens ->]. cbn. tidy.
  rewrite (calm_print h Hcalm). cbn. tidy.
  rewrite (calm_popen h Hcalm). by eexists.
Qed.

Lemma group_flow_returns (h : Host) (st : GuiState) :
  calm h → ∃ b st', ensure_docker_group_preference h st = (Ok b, st').
Proof.
  intros Hcalm. unfold ensure_docker_group_preference. unfold_monad. cbn.
  destruct (py_eq_True _); [by eexists _, _|].
  destruct (grp_getgrnam h "docker") as [gr_mem|e]; [|by eexists _, _].
  destruct (calm_user h Hcalm) as [username ->]. cbn.
  destruct (bool_decide _); cbn; [by eexists _, _|]. tidy.
  destruct (calm_dialog h Hcalm (count is_EvAlert (trace st))) as [code ->]. cbn.
  destruct (code =? QDialog.Accepted); cbn; [by eexists _, _|].
  destruct (code =? 2); cbn; [|by eexists _, _]. tidy.
  destruct (calm_run h Hcalm (count is_EvRun (trace st))) as [returncode ->]. cbn.
  destruct (returncode =? 0); cbn; tidy;
    destruct (calm_dialog h Hcalm (S (count is_EvAlert (trace st)))) as [closed ->];
    by eexists _, _.
Qed.

Lemma service_flow_returns (h : Host) (st : GuiState) :
  calm h → ∃ b st', ensure_docker_service_is_started h st = (Ok b, st').
Proof.
  intros Hcalm. unfold ensure_docker_service_is_started. unfold_monad. cbn. tidy.
  destruct (calm_ready h Hcalm (count is_EvIsDockerReady (trace st))) as [ready ->].
  destruct ready; cbn; [by eexists _, _|]. tidy.
  destruct (calm_dialog h Hcalm (count is_EvAlert (trace st))) as [code ->]. cbn.
  destruct (code =? QDialog.Accepted); cbn; [|by eexists _, _]. tidy.
  destruct (calm_run h Hcalm (count is_EvRun (trace st))) as [returncode ->]. cbn.
  destruct (returncode =? 0); cbn; tidy.
  - destruct (calm_ready h Hcalm (S (count is_EvIsDockerReady (trace st))))
      as [ready_now ->].
    destruct ready_now; cbn; [by eexists _, _|]. tidy.
    destruct (calm_dialog h Hcalm (S (count is_EvAlert (trace st)))) as [closed ->].
    by eexists _, _.
  - destruct (calm_dialog h Hcalm (S (count is_EvAlert (trace st)))) as [closed ->].
    by eexists _, _.
Qed.


Lemma host_calm_is_calm : calm host_calm.
Proof.
  constructor; cbn; try (by intros [=]); try (intros; by eexists).
  intros path e. unfold listdir_usr_share.
  destruct (String.eqb _ _); [done|]. by intros [= <-].
Qed.

Lemma host_darwin_is_calm : calm host_darwin.
Proof.
  constructor; cbn; try (by intros [=]); try (intros; by eexists).
  - by intros path e [= <-].
  - intros _ id. by repeat (destruct (String.eqb id _)).
  - intros _ path. destruct (String.eqb path _); by eexists.
Qed.



(** ** Further properties of the group-membership flow *)

(** X1. When the user is not in the docker group and accepts the dialog
    (types the password each time), the preference is set to true and saved,
    no helper is run and no further dialog is shown, and the method returns
    True. *)
Theorem typing_password_choice (h : Host) (st : GuiState)
    (gr_mem : list string) (username : string) :
  prefers_typing_password st = false →
  grp_getgrnam h "docker" = Ok gr_mem →
  getpass_getuser h = Ok username →
  username ∉ gr_mem →
  Alert_exec h (dialogs_before st) = Ok (Alert_clicked OkButton) →
  ensure_docker_group_preference h st =
    (Ok true,
     {| settings :=
          <["linux_prefers_typing_password" := VBool true]> (settings st);
        saved_settings :=
          <["linux_prefers_typing_password" := VBool true]> (settings st);
        trace := trace st ++
          [ EvGetgrnam "docker"; EvGetuser; group_dialog;
            EvSettingsSet "linux_prefers_typing_password" (VBool true);
            EvSettingsSave ] |}).
Proof.
  unfold prefers_typing_password, dialogs_before.
  intros Hpref Hgrp Huser Hmem Hcode.
  unfold ensure_docker_group_preference. unfold_monad.
  cbn. rewrite Hpref, Hgrp, Huser.
  rewrite bool_decide_eq_false_2 by done. cbn.
  tidy. rewrite Hcode. cbn. tidy. reflexivity.
Qed.

Lemma typing_password_choice_witness :
  (ensure_docker_group_preference host_types_password
     (initial_state "Document Viewer" VNone)).1 = Ok true.
Proof.
  rewrite (typing_password_choice host_types_password _ ["root"] "user");
    first [reflexivity | exact not_in_root_group].
Defined.

(** X2. When the user picks the extra button and usermod exits with a
    non-zero code, the preference false has been set and saved all the same,
    the failure notice is shown, and the method returns False. *)
Theorem add_to_group_failure (h : Host) (st : GuiState)
    (gr_mem : list string) (username : string) (returncode closed : Z) :
  prefers_typing_password st = false →
  grp_getgrnam h "docker" = Ok gr_mem →
  getpass_getuser h = Ok username →
  username ∉ gr_mem →
  Alert_exec h (dialogs_before st) = Ok (Alert_clicked ExtraButton) →
  subprocess_run h (helpers_before st) = Ok returncode →
  returncode ≠ 0 →
  Alert_exec h (S (dialogs_before st)) = Ok closed →
  ensure_docker_group_preference h st =
    (Ok false,
     {| settings :=
          <["linux_prefers_typing_password" := VBool false]> (settings st);
        saved_settings :=
          <["linux_prefers_typing_password" := VBool false]> (settings st);
        trace := trace st ++
          [ EvGetgrnam "docker"; EvGetuser; group_dialog;
            EvSettingsSet "linux_prefers_typing_password" (VBool false);
            EvSettingsSave;
            EvRun (usermod_command username);
            notice usermod_failed_message ] |}).
Proof.
  unfold prefers_typing_password, dialogs_before, helpers_before.
  intros Hpref Hgrp Huser Hmem Hcode Hrun Hfail Hclosed.
  unfold ensure_docker_group_preference. unfold_monad.
  cbn. rewrite Hpref, Hgrp, Huser.
  rewrite bool_decide_eq_false_2 by done. cbn.
  tidy. rewrite Hcode. cbn. tidy. rewrite Hrun. cbn.
  apply Z.eqb_neq in Hfail. rewrite Hfail. cbn. tidy.
  by rewrite Hclosed.
Qed.

Lemma add_to_group_failure_witness :
  (ensure_docker_group_preference host_usermod_fails
     (initial_state "Document Viewer" VNone)).1 = Ok false.
Proof.
  rewrite (add_to_group_failure host_usermod_fails _ ["root"] "user" 126
             (Alert_clicked OkButton));
    first [reflexivity | exact not_in_root_group | discriminate].
Defined.

(** X3. A user who is a member of the docker group already is not asked
    anything: the method returns True after the group lookup and the user
    lookup, with the settings as they were. *)
Theorem member_is_not_asked (h : Host) (st : GuiState)
    (gr_mem : list string) (username : string) :
  prefers_typing_password st = false →
  grp_getgrnam h "docker" = Ok gr_mem →
  getpass_getuser h = Ok username →
  username ∈ gr_mem →
  ensure_docker_group_preference h st
  = (Ok true, extend st [EvGetgrnam "docker"; EvGetuser]).
Proof.
  unfold prefers_typing_password.
  intros Hpref Hgrp Huser Hmem.
  unfold ensure_docker_group_preference. unfold_monad.
  cbn. rewrite Hpref, Hgrp, Huser.
  rewrite bool_decide_eq_true_2 by done. cbn. tidy. reflexivity.
Qed.

Lemma member_is_not_asked_witness :
  ensure_docker_group_preference host_member
    (initial_state "Document Viewer" VNone)
  = (Ok true,
     extend (initial_state "Document Viewer" VNone)
       [EvGetgrnam "docker"; EvGetuser]).
Proof.
  apply (member_is_not_asked host_member _ ["root"; "user"] "user");
    first [reflexivity | set_solver].
Defined.

(** X4. When the dialog is closed with any code other than Accepted and the
    code of the extra button (Cancel gives Rejected), the method returns
    False; nothing is written to the settings and no helper is run. *)
Theorem cancelled_dialog_returns_false (h : Host) (st : GuiState)
    (gr_mem : list string) (username : string) (code : Z) :
  prefers_typing_password st = false →
  grp_getgrnam h "docker" = Ok gr_mem →
  getpass_getuser h = Ok username →
  username ∉ gr_mem →
  Alert_exec h (dialogs_before st) = Ok code →
  code ≠ QDialog.Accepted →
  code ≠ 2 →
  ensure_docker_group_preference h st
  = (Ok false, extend st [EvGetgrnam "docker"; EvGetuser; group_dialog]).
Proof.
  unfold prefers_typing_password, dialogs_before.
  intros Hpref Hgrp Huser Hmem Hcode Hacc Hextra.
  unfold ensure_docker_group_preference. unfold_monad.
  cbn. rewrite Hpref, Hgrp, Huser.
  rewrite bool_decide_eq_false_2 by done. cbn.
  tidy. rewrite Hcode. cbn.
  apply Z.eqb_neq in Hacc, Hextra. rewrite Hacc, Hextra. reflexivity.
Qed.

Lemma cancelled_dialog_returns_false_witness :
  ensure_docker_group_preference host_cancel
    (initial_state "Document Viewer" VNone)
  = (Ok false,
     extend (initial_state "Document Viewer" VNone)
       [EvGetgrnam "docker"; EvGetuser; group_dialog]).
Proof.
  apply (cancelled_dialog_returns_false host_cancel _ ["root"] "user"
           (Alert_clicked CancelButton));
    first [reflexivity | exact not_in_root_group | discriminate].
Defined.

(** X5. The question is asked once: after the user has accepted the dialog,
    a further call, on any host, returns True at once and leaves the state
    as the first call left it. *)
Theorem asked_only_once (h h' : Host) (st : GuiState)
    (gr_mem : list string) (username : string) :
  prefers_typing_password st = false →
  grp_getgrnam h "docker" = Ok gr_mem →
  getpass_getuser h = Ok username →
  username ∉ gr_mem →
  Alert_exec h (dialogs_before st) = Ok (Alert_clicked OkButton) →
  ensure_docker_group_preference h' (ensure_docker_group_preference h st).2
  = (Ok true, (ensure_docker_group_preference h st).2).
Proof.
  unfold prefers_typing_password, dialogs_before.
  intros Hpref Hgrp Huser Hmem Hcode.
  unfold ensure_docker_group_preference at 2 3. unfold_monad.
  cbn. rewrite Hpref, Hgrp, Huser.
  rewrite bool_decide_eq_false_2 by done. cbn.
  tidy. rewrite Hcode. cbn. tidy.
  unfold ensure_docker_group_preference. unfold_monad. cbn.
  rewrite fn_lookup_insert. reflexivity.
Qed.

Lemma asked_only_once_witness :
  ensure_docker_group_preference host_cancel
    (ensure_docker_group_preference host_types_password
       (initial_state "Document Viewer" VNone)).2
  = (Ok true,
     (ensure_docker_group_preference host_types_password
        (initial_state "Document Viewer" VNone)).2).
Proof.
  apply (asked_only_once host_types_password host_cancel _ ["root"] "user");
    first [reflexivity | exact not_in_root_group].
Defined.

(** Splits a hypothesis that an event is one of the finitely many events of
    a trace into its cases, and drops the impossible ones. *)
Ltac in_trace H :=
  repeat (apply elem_of_cons in H as [H|H]; [try discriminate H|]);
  try (apply elem_of_nil in H; destruct H).

(** X6. The privileged usermod helper needs consent: whatever the host
    answers, the group flow runs at most one command, and it runs one only
    after the dialog returned the code of the extra button; the command is
    then pkexec usermod, adding the current user, and nobody else, to the
    docker group. *)
Theorem usermod_needs_consent (h : Host) (st : GuiState) :
  ∃ t, trace (ensure_docker_group_preference h st).2 = trace st ++ t
    ∧ (count is_EvRun t ≤ 1)%nat
    ∧ ∀ args, EvRun args ∈ t →
        Alert_exec h (dialogs_before st) = Ok (Alert_clicked ExtraButton)
        ∧ ∃ username, getpass_getuser h = Ok username
                      ∧ args = usermod_command username.
Proof.
  unfold dialogs_before.
  unfold ensure_docker_group_preference. unfold_monad. cbn.
  destruct (py_eq_True _).
  { exists []. rewrite app_nil_r. split; [reflexivity|]. split; [cbn; lia|].
    intros args Hin. in_trace Hin. }
  destruct (grp_getgrnam h "docker") as [gr_mem|e]; cbn.
  2: { eexists. split; [reflexivity|]. split; [cbn; lia|].
       intros args Hin. in_trace Hin. }
  destruct (getpass_getuser h) as [username|e] eqn:Huser; cbn; tidy.
  2: { eexists. split; [reflexivity|]. split; [cbn; lia|].
       intros args Hin. in_trace Hin. }
  destruct (bool_decide _); cbn; tidy.
  { eexists. split; [reflexivity|]. split; [cbn; lia|].
    intros args Hin. in_trace Hin. }
  destruct (Alert_exec h (count _ _)) as [code|e] eqn:Hcode; cbn; tidy.
  2: { eexists. split; [reflexivity|]. split; [cbn; lia|].
       intros args Hin. in_trace Hin. }
  destruct (code =? QDialog.Accepted) eqn:Hacc; cbn; tidy.
  { eexists. split; [reflexivity|]. split; [cbn; lia|].
    intros args Hin. in_trace Hin. }
  destruct (code =? 2) eqn:Hextra; cbn; tidy.
  2: { eexists. split; [reflexivity|]. split; [cbn; lia|].
       intros args Hin. in_trace Hin. }
  apply Z.eqb_eq in Hextra. subst code.
  assert (∀ rest : list event, (count is_EvRun rest = 0)%nat →
            (∀ args, EvRun args ∉ rest) →
            ∃ t, trace st ++
                   EvGetgrnam "docker" :: EvGetuser
                   :: EvAlert group_message "I'll type my password each time"
                        (Some "Add my user to the 'docker' group")
                   :: EvSettingsSet "linux_prefers_typing_password" (VBool false)
                   :: EvSettingsSave :: EvRun (usermod_command username) :: rest
                 = trace st ++ t
              ∧ (count is_EvRun t ≤ 1)%nat
              ∧ ∀ args, EvRun args ∈ t →
                  Ok 2 = Ok (Alert_clicked ExtraButton)
                  ∧ ∃ username0, Ok username = Ok username0
                                 ∧ args = usermod_command username0) as Hrest.
  { intros rest Hcount Hnone. eexists. split; [reflexivity|].
    split; [cbn; rewrite Hcount; lia|].
    intros args Hin.
    repeat (apply elem_of_cons in Hin as [Hin|Hin]; [try discriminate Hin|]).
    - injection Hin as ->. split; [reflexivity|]. by exists username.
    - by apply Hnone in Hin. }
  destruct (subprocess_run h _) as [returncode|e]; cbn; tidy.
  2: { apply (Hrest []); [reflexivity|]. intros args Hin. in_trace Hin. }
  destruct (returncode =? 0); cbn; tidy;
    destruct (Alert_exec h (S _)); cbn; tidy;
    (apply (Hrest [_]); [reflexivity|]; intros args Hin; in_trace Hin).
Qed.

(** ** Further properties of the service-activation flow *)

(** X7. The service flow is one shot and leaves the settings alone: whatever
    the host answers, and also when a call raises, it makes at most two
    readiness checks, runs at most one helper and shows at most two dialogs,
    and the settings in memory and on disk are as before. *)
Theorem service_flow_is_one_shot (h : Host) (st : GuiState) :
  ∃ t, (ensure_docker_service_is_started h st).2 = extend st t
    ∧ (1 ≤ count is_EvIsDockerReady t ≤ 2)%nat
    ∧ (count is_EvRun t ≤ 1)%nat
    ∧ (count is_EvAlert t ≤ 2)%nat.
Proof.
  unfold ensure_docker_service_is_started, extend. unfold_monad. cbn. tidy.
  destruct (is_docker_ready h (count _ _)) as [[|]|e]; cbn; tidy;
    try (eexists; split; [reflexivity|]; cbn; lia).
  destruct (Alert_exec h (count _ _)) as [code|e]; cbn; tidy;
    try (eexists; split; [reflexivity|]; cbn; lia).
  destruct (code =? QDialog.Accepted); cbn; tidy;
    try (eexists; split; [reflexivity|]; cbn; lia).
  destruct (subprocess_run h _) as [returncode|e]; cbn; tidy;
    try (eexists; split; [reflexivity|]; cbn; lia).
  destruct (returncode =? 0); cbn; tidy.
  - destruct (is_docker_ready h (S _)) as [[|]|e]; cbn; tidy;
      try (eexists; split; [reflexivity|]; cbn; lia).
    destruct (Alert_exec h (S _)); cbn; tidy;
      eexists; (split; [reflexivity|]); cbn; lia.
  - destruct (Alert_exec h (S _)); cbn; tidy;
      eexists; (split; [reflexivity|]); cbn; lia.
Qed.

(** X8. The start-service helper needs consent: whatever the host answers,
    the service flow runs a command only after the first readiness check
    said not ready and the dialog was accepted, and the command is pkexec
    with the bundled script enable_docker_service.sh and nothing else. *)
Theorem start_service_needs_consent (h : Host) (st : GuiState) :
  ∃ t, trace (ensure_docker_service_is_started h st).2 = trace st ++ t
    ∧ ∀ args, EvRun args ∈ t →
        is_docker_ready h (checks_before st) = Ok false
        ∧ Alert_exec h (dialogs_before st) = Ok QDialog.Accepted
        ∧ args = ["/usr/bin/pkexec";
                  get_resource_path h "enable_docker_service.sh"].
Proof.
  unfold checks_before, dialogs_before.
  unfold ensure_docker_service_is_started. unfold_monad. cbn. tidy.
  destruct (is_docker_ready h (count _ _)) as [[|]|e]; cbn; tidy;
    try (eexists; split; [reflexivity|]; intros args Hin; by in_trace Hin).
  destruct (Alert_exec h (count _ _)) as [code|e]; cbn; tidy;
    try (eexists; split; [reflexivity|]; intros args Hin; by in_trace Hin).
  destruct (code =? QDialog.Accepted) eqn:Hacc; cbn; tidy;
    try (eexists; split; [reflexivity|]; intros args Hin; by in_trace Hin).
  apply Z.eqb_eq in Hacc. subst code.
  destruct (subprocess_run h _) as [returncode|e]; cbn; tidy.
  2: { eexists; split; [reflexivity|]. intros args Hin. in_trace Hin.
       by injection Hin as ->. }
  destruct (returncode =? 0); cbn; tidy.
  - destruct (is_docker_ready h (S _)) as [[|]|e]; cbn; tidy.
    2: destruct (Alert_exec h (S _)); cbn; tidy.
    all: eexists; (split; [reflexivity|]); intros args Hin; in_trace Hin;
      by injection Hin as ->.
  - destruct (Alert_exec h (S _)); cbn; tidy;
      eexists; (split; [reflexivity|]); intros args Hin; in_trace Hin;
      by injection Hin as ->.
Qed.

(** ** Further properties of the viewer launcher *)

(** X9. On Darwin, a selected viewer of the registry is launched as
    [open -b <bundle identifier> <file>]: when the print of the command line
    succeeds, the command is run and waited for, the file path is its last
    argument as it stands, and the exit status of the command is ignored. *)
Theorem bundle_launch (h : Host) (self : GuiCommon) (st : GuiState)
    (filename name bundle_identifier : string) (returncode : Z) :
  platform_system h = "Darwin" →
  settings st "open_app" = VStr name →
  pdf_viewers self !! name = Some bundle_identifier →
  stdout_print h (prints_before st) = Ok tt →
  subprocess_run h (helpers_before st) = Ok returncode →
  open_pdf_viewer h self filename st
  = (Ok tt,
     extend st
       [ EvPrint (command_line ["open"; "-b"; bundle_identifier; filename]);
         EvRun ["open"; "-b"; bundle_identifier; filename] ]).
Proof.
  unfold helpers_before, prints_before. intros Hdarwin Happ Hkey Hprint Hrun.
  unfold open_pdf_viewer. unfold_monad. cbn.
  rewrite Happ, Hdarwin. cbn [dict_contains dict_getitem]. rewrite Hkey.
  rewrite bool_decide_eq_true_2 by eauto.
  cbn. tidy. rewrite Hprint. cbn. tidy. by rewrite Hrun.
Qed.

Lemma bundle_launch_witness :
  open_pdf_viewer host_darwin preview_registry "%f"
    (initial_state "Preview" VNone)
  = (Ok tt,
     extend (initial_state "Preview" VNone)
       [ EvPrint (command_line ["open"; "-b"; "com.apple.Preview"; "%f"]);
         EvRun ["open"; "-b"; "com.apple.Preview"; "%f"] ]).
Proof.
  apply (bundle_launch host_darwin preview_registry _ "%f" "Preview"
           "com.apple.Preview" 1); reflexivity.
Defined.

(** X10. Nothing is launched that was not echoed: whatever the host, the
    registry and the settings, open_pdf_viewer leaves the settings alone and
    either does nothing visible, or prints one command line; when that print
    raises, its error is raised and nothing is launched, and otherwise
    exactly the argument list that was printed is launched, once. *)
Theorem launch_is_echoed (h : Host) (self : GuiCommon) (filename : string)
    (st : GuiState) :
  ∃ t, (open_pdf_viewer h self filename st).2 = extend st t
    ∧ (t = []
       ∨ ∃ args,
           (t = [EvPrint (command_line args)]
            ∧ ∃ e, stdout_print h (prints_before st) = Raise e
                   ∧ (open_pdf_viewer h self filename st).1 = Raise e)
           ∨ (t = [EvPrint (command_line args); EvRun args]
              ∧ stdout_print h (prints_before st) = Ok tt)
           ∨ (t = [EvPrint (command_line args); EvPopen args]
              ∧ stdout_print h (prints_before st) = Ok tt)).
Proof.
  unfold prints_before.
  unfold open_pdf_viewer, extend. unfold_monad. cbn.
  assert (∀ r : result (),
            ∃ t, (r, st).2 = {| settings := settings st;
                                saved_settings := saved_settings st;
                                trace := trace st ++ t |}
              ∧ (t = []
                 ∨ ∃ args,
                     (t = [EvPrint (command_line args)]
                      ∧ ∃ e, stdout_print h (count is_EvPrint (trace st)) = Raise e
                             ∧ (r, st).1 = Raise e)
                     ∨ (t = [EvPrint (command_line args); EvRun args]
                        ∧ stdout_print h (count is_EvPrint (trace st)) = Ok tt)
                     ∨ (t = [EvPrint (command_line args); EvPopen args]
                        ∧ stdout_print h (count is_EvPrint (trace st)) = Ok tt)))
    as Hnothing.
  { intros r. exists []. rewrite app_nil_r. split; [by destruct st|by left]. }
  destruct (dict_contains _ _); cbn; [|apply Hnothing].
  destruct (String.eqb (platform_system h) "Darwin"); cbn.
  { destruct (dict_getitem _ _) as [bundle_identifier|e]; cbn; [|apply Hnothing].
    tidy. destruct (stdout_print h _) as [[]|e] eqn:Hprint; cbn; tidy.
    - destruct (subprocess_run h _); cbn;
        (eexists; split; [reflexivity|]; right; eexists; right; left; by split).
    - eexists; split; [reflexivity|]. right; eexists; left. split; [done|].
      by exists e. }
  destruct (String.eqb (platform_system h) "Linux"); cbn; [|apply Hnothing].
  destruct (dict_getitem _ _) as [template|e]; cbn; [|apply Hnothing].
  destruct (Py.shlex_split template) as [tokens|e]; cbn; [|apply Hnothing]. tidy.
  destruct (stdout_print h _) as [[]|e] eqn:Hprint; cbn; tidy.
  - eexists; split; [reflexivity|]; right; eexists; right; right; by split.
  - eexists; split; [reflexivity|]. right; eexists; left. split; [done|].
    by exists e.
Qed.

(** X11. A command template without any placeholder is launched as it is:
    when the print of the command line succeeds, the viewer is started with
    the template's tokens, and the file path is not passed to it at all. *)
Theorem template_without_placeholder (h : Host) (self : GuiCommon)
    (st : GuiState) (filename name template : string) (tokens : list string) :
  platform_system h = "Linux" →
  settings st "open_app" = VStr name →
  pdf_viewers self !! name = Some template →
  Py.shlex_split template = Ok tokens →
  (∀ token, token ∈ tokens → is_placeholder token = false) →
  stdout_print h (prints_before st) = Ok tt →
  open_pdf_viewer h self filename st
  = (subprocess_Popen h (launches_before st),
     extend st [EvPrint (command_line tokens); EvPopen tokens]).
Proof.
  unfold prints_before, launches_before.
  intros Hlinux Happ Hkey Hsplit Hplain Hprint.
  unfold open_pdf_viewer. unfold_monad. cbn.
  rewrite Happ, Hlinux. cbn [dict_contains dict_getitem]. rewrite Hkey.
  rewrite bool_decide_eq_true_2 by eauto.
  cbn. rewrite Hsplit. cbn. tidy.
  rewrite substitute_is_map.
  assert (map (fill filename) tokens = tokens) as ->.
  { clear Hsplit. induction tokens as [|token tokens IH]; [done|].
    cbn. unfold fill at 1. rewrite (Hplain token) by apply list_elem_of_here.
    rewrite IH; [done|]. intros other Hother. apply Hplain.
    by apply list_elem_of_further. }
  rewrite Hprint. cbn. tidy. reflexivity.
Qed.

Lemma template_without_placeholder_witness :
  open_pdf_viewer host_ready plain_registry "/tmp/safe.pdf"
    (initial_state "Viewer" VNone)
  = (subprocess_Popen host_ready
       (launches_before (initial_state "Viewer" VNone)),
     extend (initial_state "Viewer" VNone)
       [ EvPrint (command_line ["xdg-open"; "--new-window"]);
         EvPopen ["xdg-open"; "--new-window"] ]).
Proof.
  apply (template_without_placeholder host_ready plain_registry _ "/tmp/safe.pdf"
           "Viewer" "xdg-open --new-window"); try reflexivity.
  intros token Hin. in_trace Hin; by subst.
Defined.

(** X12. On Darwin the application never opens a document with itself:
    in the registry that [__init__] builds there, Dangerzone is no key, so
    with that name selected open_pdf_viewer starts nothing and prints
    nothing. *)
Theorem never_opens_itself (h : Host) (self : GuiCommon) (filename : string)
    (st : GuiState) :
  platform_system h = "Darwin" →
  GuiCommon_init h = Ok self →
  settings st "open_app" = VStr "Dangerzone" →
  open_pdf_viewer h self filename st = (Ok tt, st).
Proof.
  intros Hdarwin Hinit Happ.
  assert (pdf_viewers self !! "Dangerzone" = None) as Hout.
  { unfold GuiCommon_init, _find_pdf_viewers in Hinit.
    pose proof (darwin_body_keeps_out h Hdarwin) as Hbody.
    destruct (find_pdf_viewers_body h ∅) as [[[]|e] d]; [|done].
    by injection Hinit as <-. }
  unfold open_pdf_viewer. unfold_monad. cbn.
  rewrite Happ. cbn [dict_contains]. rewrite Hout.
  by rewrite bool_decide_eq_false_2 by (by intros [? ?]).
Qed.

Lemma never_opens_itself_witness :
  open_pdf_viewer host_darwin preview_registry "/tmp/safe.pdf"
    (initial_state "Dangerzone" VNone)
  = (Ok tt, initial_state "Dangerzone" VNone).
Proof. apply never_opens_itself; by vm_compute. Defined.

(** *** The echoed command line can be read back *)

Lemma append_empty_r (s : string) : s +:+ "" = s.
Proof.
  induction s as [|c s IH]; [done|].
  change (String c (s +:+ "") = String c s). by rewrite IH.
Qed.

Lemma append_assoc (a b c : string) : (a +:+ b) +:+ c = a +:+ (b +:+ c).
Proof.
  induction a as [|x a IH]; [done|].
  change (String x ((a +:+ b) +:+ c) = String x (a +:+ (b +:+ c))).
  by rewrite IH.
Qed.

Lemma chars_append (a b : string) : Py.chars (a +:+ b) = Py.chars a ++ Py.chars b.
Proof.
  unfold Py.chars. induction a as [|x a IH]; [done|].
  change (x :: list_ascii_of_string (a +:+ b)
          = x :: (list_ascii_of_string a ++ list_ascii_of_string b)).
  by rewrite IH.
Qed.

(** A character that needs no quoting is no blank, no quote and no
    backslash. *)
Lemma safe_char_is_plain (c : ascii) :
  Py.safe_char c = true →
  Py.char_in c Py.whitespace = false
  ∧ Py.char_in c Py.quotes = false
  ∧ Py.char_in c Py.escape = false.
Proof. destruct c as [[] [] [] [] [] [] [] []]; vm_compute; intuition congruence. Qed.

(** One step of the lexer between tokens, inside a word and inside single
    quotes. *)
Lemma read_tokens_blank (c : ascii) (rest : list ascii) (quoted : bool)
    (escapedstate : ascii) (token : string) (out : list string) :
  Py.read_tokens (c :: rest) " " quoted escapedstate token out
  = if Py.char_in c Py.whitespace then
      if negb (String.eqb token "") || quoted
      then Py.read_tokens rest " " false " " "" (out ++ [token])
      else Py.read_tokens rest " " quoted escapedstate token out
    else if Py.char_in c Py.escape then
      Py.read_tokens rest c quoted "a" token out
    else if Py.char_in c Py.quotes then
      Py.read_tokens rest c quoted escapedstate token out
    else Py.read_tokens rest "a" quoted escapedstate (String c "") out.
Proof. reflexivity. Qed.

Lemma read_tokens_word (c : ascii) (rest : list ascii) (quoted : bool)
    (escapedstate : ascii) (token : string) (out : list string) :
  Py.read_tokens (c :: rest) "a" quoted escapedstate token out
  = if Py.char_in c Py.whitespace then
      if negb (String.eqb token "") || quoted
      then Py.read_tokens rest " " false " " "" (out ++ [token])
      else Py.read_tokens rest " " quoted escapedstate token out
    else if Py.char_in c Py.quotes then
      Py.read_tokens rest c quoted escapedstate token out
    else if Py.char_in c Py.escape then
      Py.read_tokens rest c quoted "a" token out
    else Py.read_tokens rest "a" quoted escapedstate (Py.push token c) out.
Proof. reflexivity. Qed.

Lemma read_tokens_squote (c : ascii) (rest : list ascii) (quoted : bool)
    (escapedstate : ascii) (token : string) (out : list string) :
  Py.read_tokens (c :: rest) Py.squote quoted escapedstate token out
  = if Ascii.eqb c Py.squote
    then Py.read_tokens rest "a" true escapedstate token out
    else Py.read_tokens rest Py.squote true escapedstate (Py.push token c) out.
Proof.
  cbn [Py.read_tokens]. change (Ascii.eqb Py.squote " ") with false.
  change (Py.char_in Py.squote Py.quotes) with true.
  change (Py.char_in Py.squote Py.escapedquotes) with false.
  cbv iota. by rewrite andb_false_r.
Qed.

(** Inside a word, characters that need no quoting are added to the
    token. *)
Lemma read_safe_chars (s : string) (tail : list ascii) (quoted : bool)
    (escapedstate : ascii) (token : string) (out : list string) :
  forallb Py.safe_char (Py.chars s) = true →
  Py.read_tokens (Py.chars s ++ tail) "a" quoted escapedstate token out
  = Py.read_tokens tail "a" quoted escapedstate (token +:+ s) out.
Proof.
  revert token. induction s as [|c s IH]; intros token Hsafe.
  { cbn [Py.chars list_ascii_of_string app]. by rewrite append_empty_r. }
  change (Py.chars (String c s)) with (c :: Py.chars s) in *.
  cbn [forallb] in Hsafe. apply andb_prop in Hsafe as [Hc Hs].
  destruct (safe_char_is_plain c Hc) as (Hws & Hq & He).
  cbn [app]. rewrite read_tokens_word, Hws, Hq, He.
  rewrite IH by done. unfold Py.push. by rewrite append_assoc.
Qed.

(** The body of a single-quoted string, up to and with the closing quote:
    every character is added to the token, a single quote by way of the
    detour through double quotes. *)
Lemma read_quoted_body (s : string) (tail : list ascii) (quoted : bool)
    (escapedstate : ascii) (token : string) (out : list string) :
  Py.read_tokens (Py.chars (Py.replace_squote s) ++ Py.squote :: tail)
    Py.squote quoted escapedstate token out
  = Py.read_tokens tail "a" true escapedstate (token +:+ s) out.
Proof.
  revert token quoted. induction s as [|c s IH]; intros token quoted.
  { cbn [Py.replace_squote Py.chars list_ascii_of_string app].
    rewrite read_tokens_squote. change (Ascii.eqb Py.squote Py.squote) with true.
    cbv iota. by rewrite append_empty_r. }
  cbn [Py.replace_squote].
  destruct (Ascii.eqb c Py.squote) eqn:Hc.
  - apply Ascii.eqb_eq in Hc. subst c.
    change (Py.chars (String Py.squote (String Py.dquote (String Py.squote
              (String Py.dquote (String Py.squote (Py.replace_squote s)))))))
      with (Py.squote :: Py.dquote :: Py.squote :: Py.dquote :: Py.squote
            :: Py.chars (Py.replace_squote s)).
    cbn [app].
    rewrite read_tokens_squote. change (Ascii.eqb Py.squote Py.squote) with true.
    cbv iota.
    change (Py.read_tokens
              (Py.dquote :: Py.squote :: Py.dquote :: Py.squote
               :: Py.chars (Py.replace_squote s) ++ Py.squote :: tail)
              "a" true escapedstate token out)
      with (Py.read_tokens
              (Py.chars (Py.replace_squote s) ++ Py.squote :: tail)
              Py.squote true escapedstate (Py.push token Py.squote) out).
    rewrite IH. unfold Py.push. by rewrite append_assoc.
  - change (Py.chars (String c (Py.replace_squote s)))
      with (c :: Py.chars (Py.replace_squote s)).
    cbn [app]. rewrite read_tokens_squote, Hc.
    rewrite IH. unfold Py.push. by rewrite append_assoc.
Qed.

(** A quoted argument is read as one token: after it the lexer is inside a
    word whose token is the argument, and the word counts even when it is
    empty. *)
Lemma read_quoted_token (s : string) (tail : list ascii) (out : list string) :
  ∃ quoted,
    (quoted = true ∨ s ≠ "")
    ∧ Py.read_tokens (Py.chars (Py.quote s) ++ tail) " " false " " "" out
      = Py.read_tokens tail "a" quoted " " s out.
Proof.
  unfold Py.quote. destruct (String.eqb s "") eqn:Hempty.
  { apply String.eqb_eq in Hempty. subst s. exists true. by split; [left|]. }
  apply String.eqb_neq in Hempty.
  destruct (forallb Py.safe_char (Py.chars s)) eqn:Hsafe.
  - exists false. split; [by right|].
    destruct s as [|c s]; [done|].
    change (Py.chars (String c s)) with (c :: Py.chars s) in *.
    cbn [forallb] in Hsafe. apply andb_prop in Hsafe as [Hc Hs].
    destruct (safe_char_is_plain c Hc) as (Hws & Hq & He).
    cbn [app]. rewrite read_tokens_blank, Hws, Hq, He.
    by rewrite read_safe_chars.
  - exists true. split; [by left|].
    change (String Py.squote (Py.replace_squote s) +:+ String Py.squote "")
      with (String Py.squote (Py.replace_squote s +:+ String Py.squote "")).
    change (Py.chars (String Py.squote (Py.replace_squote s +:+ String Py.squote "")))
      with (Py.squote :: Py.chars (Py.replace_squote s +:+ String Py.squote "")).
    rewrite chars_append.
    change (Py.chars (String Py.squote "")) with [Py.squote].
    cbn [app]. rewrite <- app_assoc. cbn [app].
    rewrite read_tokens_blank.
    change (Py.char_in Py.squote Py.whitespace) with false.
    change (Py.char_in Py.squote Py.escape) with false.
    change (Py.char_in Py.squote Py.quotes) with true.
    cbv iota. by rewrite read_quoted_body.
Qed.

(** A word that counts is collected at the end of the input and at a
    blank. *)
Lemma read_token_end (quoted : bool) (s : string) (out : list string) :
  quoted = true ∨ s ≠ "" →
  Py.read_tokens [] "a" quoted " " s out = Ok (out ++ [s])
  ∧ ∀ rest, Py.read_tokens (" "%char :: rest) "a" quoted " " s out
            = Py.read_tokens rest " " false " " "" (out ++ [s]).
Proof.
  intros Hcounts.
  assert (negb (String.eqb s "") || quoted = true) as Hemit.
  { destruct Hcounts as [->|Hs]; [apply orb_true_r|].
    apply String.eqb_neq in Hs. by rewrite Hs. }
  split.
  - cbn. unfold Py.collect.
    destruct quoted, (String.eqb s ""); cbn in *; done.
  - intros rest. rewrite read_tokens_word.
    change (Py.char_in " " Py.whitespace) with true. cbv iota.
    by rewrite Hemit.
Qed.

Lemma read_joined (args out : list string) :
  Py.read_tokens (Py.chars (Py.str_join " " (map Py.quote args)))
    " " false " " "" out
  = Ok (out ++ args).
Proof.
  revert out. induction args as [|arg args IH]; intros out.
  { cbn. by rewrite app_nil_r. }
  destruct args as [|next args].
  - cbn [map Py.str_join].
    destruct (read_quoted_token arg [] out) as (quoted & Hcounts & Hread).
    rewrite app_nil_r in Hread. rewrite Hread.
    by apply read_token_end.
  - change (Py.str_join " " (map Py.quote (arg :: next :: args)))
      with (Py.quote arg +:+ " " +:+ Py.str_join " " (map Py.quote (next :: args))).
    rewrite !chars_append.
    change (Py.chars " ") with [" "%char]. cbn [app].
    destruct (read_quoted_token arg
                (" "%char :: Py.chars (Py.str_join " " (map Py.quote (next :: args))))
                out) as (quoted & Hcounts & Hread).
    rewrite Hread.
    destruct (read_token_end quoted arg out Hcounts) as [_ Hblank].
    rewrite Hblank, IH. by rewrite <- app_assoc.
Qed.

(** X13. The echoed command line can be read back: what open_pdf_viewer
    prints is the colour prefix followed by a string that shlex.split
    tokenizes to exactly the argument list that is launched, whatever
    blanks, quotes or backslashes the file path and the other arguments
    hold. *)
Theorem echoed_command_reads_back (args : list string) :
  ∃ args_str,
    command_line args = Fore_YELLOW +:+ bullet +:+ Fore_CYAN +:+ args_str
    ∧ Py.shlex_split args_str = Ok args.
Proof.
  exists (Py.str_join " " (map Py.quote args)). split; [reflexivity|].
  apply (read_joined args []).
Qed.

(** ** Further properties of the viewer registry *)

Lemma for_each_keeps_in {S A} (P : S → Prop) (body : A → M S unit) (xs : list A) :
  (∀ x s, x ∈ xs → P s → P (body x s).2) →
  ∀ s, P s → P (for_each xs body s).2.
Proof.
  induction xs as [|x xs IH]; intros Hbody s Hs; [done|].
  cbn. unfold mbind, M_bind.
  pose proof (Hbody x s ltac:(set_solver) Hs) as Hx.
  destruct (body x s) as [[[]|e] s']; cbn in *; [|done].
  apply IH; [|done]. intros y s0 Hy. apply Hbody. set_solver.
Qed.

Lemma find_desktop_file_backed (h : Host) (search_path : string)
    (filenames : list string) (filename : string) (viewers : gmap string string) :
  search_path ∈ search_paths h →
  os_listdir h search_path = Ok filenames →
  filename ∈ filenames →
  (∀ name exec, viewers !! name = Some exec → from_desktop_file h name exec) →
  ∀ name exec,
    (find_desktop_file h search_path filename viewers).2 !! name = Some exec →
    from_desktop_file h name exec.
Proof.
  intros Hpath Hlist Hfile Hbacked name exec.
  unfold find_desktop_file. unfold_monad.
  destruct (String.eqb _ ".desktop") eqn:Hext; [|by apply Hbacked].
  apply String.eqb_eq in Hext.
  destruct (DesktopEntry h _) as [entry|e] eqn:Hentry; [|by apply Hbacked].
  destruct (bool_decide _) eqn:Hpdf; cbn; [|by apply Hbacked].
  apply bool_decide_eq_true in Hpdf.
  destruct (String.eqb (getName entry) "dangerzone"); cbn; [by apply Hbacked|].
  destruct (decide (getName entry = name)) as [<-|Hother].
  - rewrite lookup_insert_eq. intros [= <-].
    by exists search_path, filenames, filename, entry.
  - rewrite lookup_insert_ne by done. by apply Hbacked.
Qed.

Lemma find_in_search_path_backed (h : Host) (search_path : string)
    (viewers : gmap string string) :
  search_path ∈ search_paths h →
  (∀ name exec, viewers !! name = Some exec → from_desktop_file h name exec) →
  ∀ name exec,
    (find_in_search_path h search_path viewers).2 !! name = Some exec →
    from_desktop_file h name exec.
Proof.
  intros Hpath Hbacked.
  unfold find_in_search_path, try_except_only, lift, mbind, M_bind at 1.
  destruct (os_listdir h search_path) as [filenames|e] eqn:Hlist.
  - pose proof (for_each_keeps_in
                  (λ d : gmap string string,
                     ∀ name exec, d !! name = Some exec → from_desktop_file h name exec)
                  (find_desktop_file h search_path) filenames) as Hloop.
    specialize (Hloop (λ x s Hx Hs,
                  find_desktop_file_backed h search_path filenames x s Hpath Hlist Hx Hs)
                  viewers Hbacked).
    destruct (for_each filenames _ viewers) as [[[]|e] d]; cbn in *; [done|].
    by destruct (is_FileNotFoundError e).
  - by destruct (is_FileNotFoundError e).
Qed.

(** X14. On Linux, every viewer of the registry is backed by a desktop
    file: a file with the extension .desktop in one of the three search
    directories, whose entry declares the type application/pdf and gives
    the name and the command template stored. *)
Theorem linux_registry_is_backed (h : Host) (viewers : gmap string string)
    (name exec : string) :
  platform_system h = "Linux" →
  _find_pdf_viewers h = Ok viewers →
  viewers !! name = Some exec →
  from_desktop_file h name exec.
Proof.
  intros Hlinux Hbuild.
  unfold _find_pdf_viewers, find_pdf_viewers_body in Hbuild.
  rewrite Hlinux in Hbuild. cbn [String.eqb Ascii.eqb Bool.eqb] in Hbuild.
  pose proof (for_each_keeps_in
                (λ d : gmap string string,
                   ∀ name exec, d !! name = Some exec → from_desktop_file h name exec)
                (find_in_search_path h) (search_paths h)
                (λ x s Hx Hs, find_in_search_path_backed h x s Hx Hs) ∅) as Hloop.
  destruct (for_each (search_paths h) _ ∅) as [[[]|e] d]; [|done].
  injection Hbuild as <-. cbn in Hloop. apply Hloop.
  intros ? ? Hnone. by rewrite lookup_empty in Hnone.
Qed.

Lemma linux_registry_is_backed_witness :
  from_desktop_file host_ready "Document Viewer" "evince %U".
Proof.
  apply (linux_registry_is_backed host_ready
           {[ "Document Viewer" := "evince %U" ]}); by vm_compute.
Defined.

Lemma find_bundle_backed (h : Host) (handlers : list string)
    (bundle_identifier : string) (viewers : gmap string string) :
  LSCopyAllRoleHandlersForContentType h "com.adobe.pdf" = Some handlers →
  bundle_identifier ∈ handlers →
  (∀ name id, viewers !! name = Some id → from_bundle h name id ∧ name ≠ "") →
  ∀ name id,
    (find_bundle h bundle_identifier viewers).2 !! name = Some id →
    from_bundle h name id ∧ name ≠ "".
Proof.
  intros Hhandlers Hin Hbacked name id.
  unfold find_bundle. unfold_monad.
  destruct (LSCopyApplicationURLsForBundleIdentifier h _) as [[|url urls]|] eqn:Hurls;
    [by apply Hbacked| |by apply Hbacked].
  destruct (os_path_exists h _) eqn:Hexists; cbn; [|by apply Hbacked].
  destruct (read_plist h _) as [plist|e] eqn:Hplist; [|by apply Hbacked].
  destruct (plist !! "CFBundleName") as [bundle_name|] eqn:Hname;
    [|by apply Hbacked].
  destruct (String.eqb bundle_name "") eqn:Hempty; cbn; [by apply Hbacked|].
  destruct (String.eqb bundle_name "Dangerzone"); cbn; [by apply Hbacked|].
  apply String.eqb_neq in Hempty.
  destruct (decide (bundle_name = name)) as [<-|Hother].
  - rewrite lookup_insert_eq. intros [= <-]. split; [|done].
    by exists handlers, url, urls, plist.
  - rewrite lookup_insert_ne by done. by apply Hbacked.
Qed.

(** X15. On Darwin, every viewer of the registry is backed by a bundle: its
    identifier is one of the registered PDF handlers, the handler has an
    application URL whose Info.plist exists and gives the display name as
    CFBundleName, and that name is not empty. *)
Theorem darwin_registry_is_backed (h : Host) (viewers : gmap string string)
    (name bundle_identifier : string) :
  platform_system h = "Darwin" →
  _find_pdf_viewers h = Ok viewers →
  viewers !! name = Some bundle_identifier →
  from_bundle h name bundle_identifier ∧ name ≠ "".
Proof.
  intros Hdarwin Hbuild.
  unfold _find_pdf_viewers, find_pdf_viewers_body in Hbuild.
  rewrite Hdarwin in Hbuild. cbn [String.eqb Ascii.eqb Bool.eqb] in Hbuild.
  destruct (LSCopyAllRoleHandlersForContentType h "com.adobe.pdf")
    as [handlers|] eqn:Hhandlers; [|done].
  pose proof (for_each_keeps_in
                (λ d : gmap string string,
                   ∀ name id, d !! name = Some id → from_bundle h name id ∧ name ≠ "")
                (find_bundle h) handlers
                (λ x s Hx Hs, find_bundle_backed h handlers x s Hhandlers Hx Hs) ∅)
    as Hloop.
  destruct (for_each handlers _ ∅) as [[[]|e] d]; [|done].
  injection Hbuild as <-. cbn in Hloop. apply Hloop.
  intros ? ? Hnone. by rewrite lookup_empty in Hnone.
Qed.

Lemma darwin_registry_is_backed_witness :
  from_bundle host_darwin "Preview" "com.apple.Preview" ∧ "Preview" ≠ "".
Proof.
  apply (darwin_registry_is_backed host_darwin
           {[ "Preview" := "com.apple.Preview" ]}); by vm_compute.
Defined.

(** When the search directories can be read, the build is the scan: the
    viewers are registered one after the other in the order of the
    directories and, within a directory, of its listing. *)
Lemma find_desktop_file_scan (h : Host) (search_path filename : string)
    (viewers : gmap string string) :
  ((Py.splitext filename).2 = ".desktop" →
   ∃ entry, DesktopEntry h (Py.os_path_join search_path filename) = Ok entry) →
  find_desktop_file h search_path filename viewers
  = (Ok tt, foldl register viewers
              (option_list (desktop_viewer h search_path filename))).
Proof.
  intros Hparse. unfold find_desktop_file, desktop_viewer. unfold_monad.
  destruct (String.eqb _ ".desktop") eqn:Hext; [|done].
  apply String.eqb_eq in Hext. destruct (Hparse Hext) as [entry ->].
  by destruct (_ && _).
Qed.

Lemma for_each_file_scan (h : Host) (search_path : string)
    (filenames : list string) (viewers : gmap string string) :
  (∀ filename, filename ∈ filenames →
     (Py.splitext filename).2 = ".desktop" →
     ∃ entry, DesktopEntry h (Py.os_path_join search_path filename) = Ok entry) →
  for_each filenames (find_desktop_file h search_path) viewers
  = (Ok tt, foldl register viewers (omap (desktop_viewer h search_path) filenames)).
Proof.
  revert viewers. induction filenames as [|filename filenames IH];
    intros viewers Hparse; [done|].
  cbn [for_each]. unfold mbind, M_bind.
  rewrite find_desktop_file_scan by (apply Hparse; set_solver).
  rewrite IH by (intros; apply Hparse; [set_solver|done]).
  cbn [omap list_omap].
  by destruct (desktop_viewer h search_path filename).
Qed.

Lemma find_in_search_path_scan (h : Host) (search_path : string)
    (viewers : gmap string string) :
  readable h →
  search_path ∈ search_paths h →
  find_in_search_path h search_path viewers
  = (Ok tt, foldl register viewers (directory_viewers h search_path)).
Proof.
  intros Hreadable Hpath. unfold directory_viewers.
  destruct (os_listdir h search_path) as [filenames|e] eqn:Hlist.
  - unfold find_in_search_path, try_except_only, lift, mbind, M_bind at 1.
    rewrite Hlist. rewrite for_each_file_scan; [done|].
    intros filename Hin Hext.
    by apply (readable_entry h Hreadable search_path filenames).
  - rewrite (readable_listdir h Hreadable _ _ Hpath Hlist) in Hlist.
    unfold find_in_search_path. unfold_monad. by rewrite Hlist.
Qed.

Lemma for_each_path_scan (h : Host) (paths : list string)
    (viewers : gmap string string) :
  readable h →
  (∀ search_path, search_path ∈ paths → search_path ∈ search_paths h) →
  for_each paths (find_in_search_path h) viewers
  = (Ok tt, foldl register viewers (paths ≫= directory_viewers h)).
Proof.
  intros Hreadable. revert viewers.
  induction paths as [|search_path paths IH]; intros viewers Hpaths; [done|].
  cbn [for_each]. unfold mbind at 1, M_bind.
  rewrite find_in_search_path_scan by (try done; apply Hpaths; set_solver).
  rewrite IH by (intros; apply Hpaths; set_solver).
  cbn. by rewrite foldl_app.
Qed.

Lemma find_pdf_viewers_scan (h : Host) :
  platform_system h = "Linux" →
  readable h →
  _find_pdf_viewers h = Ok (foldl register ∅ (scanned_viewers h)).
Proof.
  intros Hlinux Hreadable. unfold _find_pdf_viewers, find_pdf_viewers_body.
  rewrite Hlinux. cbn [String.eqb Ascii.eqb Bool.eqb].
  by rewrite for_each_path_scan.
Qed.

(** Registering further viewers keeps a name registered, and changes the
    command of a name only if one of them has that name. *)
Lemma foldl_register_is_Some (viewers : gmap string string)
    (scan : list (string * string)) (name : string) :
  is_Some (viewers !! name) → is_Some (foldl register viewers scan !! name).
Proof.
  revert viewers. induction scan as [|[k v] scan IH]; intros viewers Hsome; [done|].
  cbn. apply IH. unfold register. cbn.
  destruct (decide (k = name)) as [->|Hne].
  - rewrite lookup_insert_eq. eauto.
  - by rewrite lookup_insert_ne.
Qed.

Lemma foldl_register_other (viewers : gmap string string)
    (scan : list (string * string)) (name : string) :
  name ∉ scan.*1 → foldl register viewers scan !! name = viewers !! name.
Proof.
  revert viewers. induction scan as [|[k v] scan IH]; intros viewers Hnot; [done|].
  cbn in Hnot. apply not_elem_of_cons in Hnot as [Hne Hrest].
  cbn. rewrite IH by done. unfold register. cbn.
  by rewrite lookup_insert_ne.
Qed.

(** X16. On Linux, when the search directories can be read, the build
    returns a registry that has a key for every desktop file of a search
    directory that declares the type application/pdf and a name other than
    dangerzone. *)
Theorem every_pdf_entry_is_registered (h : Host) :
  platform_system h = "Linux" →
  readable h →
  ∃ viewers,
    _find_pdf_viewers h = Ok viewers
    ∧ ∀ search_path filenames filename entry,
        search_path ∈ search_paths h →
        os_listdir h search_path = Ok filenames →
        filename ∈ filenames →
        (Py.splitext filename).2 = ".desktop" →
        DesktopEntry h (Py.os_path_join search_path filename) = Ok entry →
        "application/pdf" ∈ getMimeTypes entry →
        getName entry ≠ "dangerzone" →
        is_Some (viewers !! getName entry).
Proof.
  intros Hlinux Hreadable. eexists. split; [by apply find_pdf_viewers_scan|].
  intros search_path filenames filename entry Hpath Hlist Hfile Hext Hentry
    Hpdf Hname.
  assert ((getName entry, getExec entry) ∈ scanned_viewers h) as Hscanned.
  { unfold scanned_viewers. apply list_elem_of_bind. exists search_path.
    split; [|done]. unfold directory_viewers. rewrite Hlist.
    apply list_elem_of_omap. exists filename. split; [done|].
    unfold desktop_viewer. rewrite Hext, Hentry.
    rewrite bool_decide_eq_true_2 by done.
    apply String.eqb_neq in Hname. by rewrite Hname. }
  apply list_elem_of_split in Hscanned as (earlier & later & ->).
  rewrite foldl_app. cbn. apply foldl_register_is_Some.
  unfold register. cbn. rewrite lookup_insert_eq. eauto.
Qed.

Lemma host_two_directories_readable : readable host_two_directories.
Proof.
  constructor; cbn.
  - intros search_path e _.
    repeat (destruct (String.eqb search_path _); [done|]). by intros [= <-].
  - intros search_path filenames filename _ _ _ _.
    destruct (String.eqb _ _); by eexists.
Qed.

Lemma every_pdf_entry_is_registered_witness :
  ∃ viewers,
    _find_pdf_viewers host_two_directories = Ok viewers
    ∧ ∀ search_path filenames filename entry,
        search_path ∈ search_paths host_two_directories →
        os_listdir host_two_directories search_path = Ok filenames →
        filename ∈ filenames →
        (Py.splitext filename).2 = ".desktop" →
        DesktopEntry host_two_directories (Py.os_path_join search_path filename)
        = Ok entry →
        "application/pdf" ∈ getMimeTypes entry →
        getName entry ≠ "dangerzone" →
        is_Some (viewers !! getName entry).
Proof.
  apply every_pdf_entry_is_registered;
    [reflexivity | exact host_two_directories_readable].
Defined.

(** X17. On Linux, when the search directories can be read, the viewer
    scanned last under a name is the one the registry keeps: a desktop file
    of a later search directory, or later in a listing, replaces the command
    of an earlier one with the same name. *)
Theorem last_scanned_entry_wins (h : Host) (name exec : string)
    (earlier later : list (string * string)) :
  platform_system h = "Linux" →
  readable h →
  scanned_viewers h = earlier ++ (name, exec) :: later →
  name ∉ later.*1 →
  ∃ viewers, _find_pdf_viewers h = Ok viewers ∧ viewers !! name = Some exec.
Proof.
  intros Hlinux Hreadable Hscan Hlast.
  eexists. split; [by apply find_pdf_viewers_scan|].
  rewrite Hscan, foldl_app. cbn.
  rewrite foldl_register_other by done.
  unfold register. cbn. apply lookup_insert_eq.
Qed.

Lemma last_scanned_entry_wins_witness :
  ∃ viewers,
    _find_pdf_viewers host_two_directories = Ok viewers
    ∧ viewers !! "Document Viewer" = Some "evince --fullscreen %U".
Proof.
  apply (last_scanned_entry_wins host_two_directories "Document Viewer"
           "evince --fullscreen %U" [("Document Viewer", "evince %U")] []);
    [reflexivity | exact host_two_directories_readable | by vm_compute
    | apply not_elem_of_nil].
Defined.

(** ** Further error behaviour *)

(** X18. On Linux, a selected template that shlex.split cannot tokenize
    makes open_pdf_viewer raise the tokenizer's error before anything is
    printed or launched: the state is the one it was called in. *)
Theorem untokenizable_template_raises (h : Host) (self : GuiCommon)
    (st : GuiState) (filename name template : string) (e : exn) :
  platform_system h = "Linux" →
  settings st "open_app" = VStr name →
  pdf_viewers self !! name = Some template →
  Py.shlex_split template = Raise e →
  open_pdf_viewer h self filename st = (Raise e, st).
Proof.
  intros Hlinux Happ Hkey Hsplit.
  unfold open_pdf_viewer. unfold_monad. cbn.
  rewrite Happ, Hlinux. cbn [dict_contains dict_getitem]. rewrite Hkey.
  rewrite bool_decide_eq_true_2 by eauto.
  cbn. by rewrite Hsplit.
Qed.

Lemma untokenizable_template_raises_witness :
  open_pdf_viewer host_ready unclosed_registry "/tmp/safe.pdf"
    (initial_state "Viewer" VNone)
  = (Raise (ValueError "No closing quotation"), initial_state "Viewer" VNone).
Proof.
  apply (untokenizable_template_raises host_ready unclosed_registry _ _
           "Viewer" "viewer --title='my files %f"); reflexivity.
Defined.

(** X19. Only the group lookup is guarded: when the docker group exists but
    the name of the current user cannot be found, the error of
    getpass.getuser is raised to the caller, with no dialog shown and the
    settings as they were. *)
Theorem user_lookup_error_is_raised (h : Host) (st : GuiState)
    (gr_mem : list string) (e : exn) :
  prefers_typing_password st = false →
  grp_getgrnam h "docker" = Ok gr_mem →
  getpass_getuser h = Raise e →
  ensure_docker_group_preference h st
  = (Raise e, extend st [EvGetgrnam "docker"; EvGetuser]).
Proof.
  unfold prefers_typing_password. intros Hpref Hgrp Huser.
  unfold ensure_docker_group_preference. unfold_monad. cbn.
  rewrite Hpref, Hgrp, Huser. cbn. tidy. reflexivity.
Qed.

Lemma user_lookup_error_is_raised_witness :
  ensure_docker_group_preference host_no_user
    (initial_state "Document Viewer" VNone)
  = (Raise KeyError,
     extend (initial_state "Document Viewer" VNone)
       [EvGetgrnam "docker"; EvGetuser]).
Proof.
  apply (user_lookup_error_is_raised host_no_user _ ["root"]); reflexivity.
Defined.

(** ** The dialog *)

(** Membership in, and absence of repetitions from, a list that is written
    out. *)
Ltac solve_in :=
  repeat first [apply list_elem_of_here | apply list_elem_of_further].

Ltac solve_nodup :=
  repeat (apply NoDup_cons; split;
          [let Hin := fresh "Hin" in intros Hin; in_trace Hin|]);
  apply NoDup_nil_2.

